(** * RAG_Gmail: the retrieval-augmented answer pipeline, in Rocq

    A shallow embedding of
      - [src/rag_core/generate_answer.py] (prompt assembly, budget
        truncation, the orchestrator [generate_answer]),
      - [src/llm/providers.py] (the provider factory and the Ollama provider),
      - [src/embedding/embed_texts.py], [src/vector_db/vector_store.py]
        (the two collaborators the orchestrator calls),
      - [src/email_ingest/fetch_email.py] (recursive body extraction),
    followed by the properties of the specification that concern them.

    Python [str] is modelled by [string], one character of the one for one
    character of the other: the 256 values of a character stand for the
    code points U+0000 to U+00FF, and text with other characters is outside
    the model.  [len] is [String.length] read as an integer.  A metadata dict and a keyword-argument dict are [gmap]s with
    string keys.  Exceptions are values of [exn]; code that talks to the
    outside world runs in the monad [M], which threads the log of external
    calls and may raise. *)

From Stdlib Require Import String Ascii List ZArith Lia Floats.
From stdpp Require Import base option list strings pretty gmap.

Local Open Scope string_scope.
Local Open Scope list_scope.
Local Open Scope Z_scope.

(** ** Python strings *)

Module Py.

Definition LF : string := String "010"%char EmptyString.

(** [len(s)] *)
Definition len (s : string) : Z := Z.of_nat (String.length s).

(** [sep.join(l)] *)
Fixpoint join (sep : string) (l : list string) : string :=
  match l with
  | [] => EmptyString
  | [x] => x
  | x :: rest => x +:+ sep +:+ join sep rest
  end.

(** Truthiness of a [str]: the empty string is false. *)
Definition truthy (s : string) : bool :=
  match s with EmptyString => false | _ => true end.

(** [d.get(k) or alt]: [d.get(k)] is [None] when the key is missing, and
    both [None] and the empty string are false. *)
Definition get_or (o : option string) (alt : string) : string :=
  match o with
  | Some s => if truthy s then s else alt
  | None => alt
  end.

(** White space for [str.strip()] and for the class [\s] of a [str]
    pattern, which are the characters of [str.isspace()]: below U+0100
    these are TAB, LF, VT, FF, CR (9-13), the separators U+001C-U+001F,
    the space, NEL (U+0085) and the no-break space (U+00A0). *)
Definition is_space (c : ascii) : bool :=
  let n := nat_of_ascii c in
  ((n =? 32) || ((9 <=? n) && (n <=? 13)) || ((28 <=? n) && (n <=? 31))
   || (n =? 133) || (n =? 160))%nat.

Fixpoint lstrip (s : string) : string :=
  match s with
  | String c rest => if is_space c then lstrip rest else s
  | EmptyString => EmptyString
  end.

Fixpoint rstrip (s : string) : string :=
  match s with
  | EmptyString => EmptyString
  | String c rest =>
      match rstrip rest with
      | EmptyString => if is_space c then EmptyString else String c EmptyString
      | r => String c r
      end
  end.

(** [s.strip()] *)
Definition strip (s : string) : string := rstrip (lstrip s).

(** [repr] of a [str] that holds no quote, backslash or control
    character, as the keys of the provider table are. *)
Definition repr_str (s : string) : string := "'" +:+ s +:+ "'".

(** [repr] (and [str]) of a list of such strings: ['a', 'b']. *)
Definition repr_list (l : list string) : string :=
  "[" +:+ join ", " (map repr_str l) +:+ "]".

(** [c * n] for a one-character string. *)
Definition times (c : ascii) (n : nat) : string :=
  string_of_list_ascii (repeat c n).

End Py.

(** ** Exceptions and results *)

Inductive exn : Type :=
  | ValueError (msg : string)
  | KeyError (key : string)
  | TypeError (msg : string)
  | BinasciiError (msg : string)
  | IndexError (msg : string)
  | Exception (msg : string)
  | ExternalError (msg : string).   (* raised inside a collaborator's library *)

Inductive result (A : Type) : Type :=
  | Ok (a : A)
  | Raise (e : exn).
Arguments Ok {A} a.
Arguments Raise {A} e.

(** ** config/settings.py *)

Definition MAX_CONTEXT_LENGTH : Z := 3000.
Definition TOP_K_RESULTS : Z := 5.

(** ** rag_core/generate_answer.py: the prompt *)

Definition INSTRUCTION : string :=
  "Using only the CONTEXT above, answer the QUESTION as accurately and completely as possible.".

(** [build_prompt], lines 23-33. *)
Definition build_prompt (question : string) (email_snippets : list string) : string :=
  let context := Py.join (Py.LF +:+ Py.LF) email_snippets in
  ("QUESTION:" +:+ Py.LF +:+ question +:+ Py.LF +:+ Py.LF)
  +:+ ("CONTEXT:" +:+ Py.LF +:+ context +:+ Py.LF +:+ Py.LF)
  +:+ INSTRUCTION.

(** The loop of lines 109-114: [truncated_contexts] and [current_length]
    are the loop's two variables; [break] leaves with what was kept. *)
Fixpoint truncate_loop (available_context_length : Z)
    (truncated_contexts : list string) (current_length : Z)
    (email_contexts : list string) : list string :=
  match email_contexts with
  | [] => truncated_contexts
  | context :: rest =>
      if current_length + Py.len context <? available_context_length
      then truncate_loop available_context_length
             (truncated_contexts ++ [context])
             (current_length + Py.len context) rest
      else truncated_contexts
  end.

(** Lines 105-114. *)
Definition truncate_contexts (question : string) (email_contexts : list string)
    : list string :=
  let available_context_length := MAX_CONTEXT_LENGTH - Py.len question - 100 in
  truncate_loop available_context_length [] 0 email_contexts.

(** Lines 100-116: the prompt handed to [generate_llm_answer]. *)
Definition bounded_prompt (question : string) (email_contexts : list string) : string :=
  let prompt := build_prompt question email_contexts in
  if MAX_CONTEXT_LENGTH <? Py.len prompt
  then build_prompt question (truncate_contexts question email_contexts)
  else prompt.

(** ** Matches and sources *)

(** A match returned by the index: [match.id], [match.score],
    [match.metadata]. *)
Record Match : Type := mkMatch {
  match_id : string;
  match_score : float;
  match_metadata : gmap string string
}.

(** The dict appended to [source_emails], lines 90-97; its six keys are
    fixed, so it is a record. *)
Record Source : Type := mkSource {
  src_id : string;
  src_score : float;
  src_subject : string;
  src_from : string;
  src_date : string;
  src_snippet : string
}.

(** [d.get(k, dflt)] *)
Definition dict_get (d : gmap string string) (k dflt : string) : string :=
  default dflt (d !! k).

(** Lines 79-85: the context block of one match. *)
Definition context_block (metadata : gmap string string) : string :=
  let context := "Subject: " +:+ dict_get metadata "subject" "N/A" +:+ Py.LF in
  let context := context +:+ ("From: " +:+ dict_get metadata "from" "N/A" +:+ Py.LF) in
  let context := context +:+ ("Date: " +:+ dict_get metadata "date" "N/A" +:+ Py.LF) in
  let content :=
    Py.get_or (metadata !! "body_preview") (dict_get metadata "snippet" EmptyString) in
  context +:+ ("Content: " +:+ content +:+ Py.LF).

(** Lines 90-97. *)
Definition source_of (m : Match) : Source :=
  let metadata := match_metadata m in
  {| src_id := match_id m;
     src_score := match_score m;
     src_subject := dict_get metadata "subject" "N/A";
     src_from := dict_get metadata "from" "N/A";
     src_date := dict_get metadata "date" "N/A";
     src_snippet := dict_get metadata "snippet" EmptyString |}.

(** The loop of lines 72-97: both lists start empty and grow at the end,
    one element per match. *)
Definition collect_step (acc : list string * list Source) (m : Match)
    : list string * list Source :=
  let '(email_contexts, source_emails) := acc in
  (email_contexts ++ [context_block (match_metadata m)],
   source_emails ++ [source_of m]).

Definition collect (matches : list Match) : list string * list Source :=
  fold_left collect_step matches ([], []).

(** ** The outside world *)

(** The JSON body posted to Ollama's [/api/generate], providers.py 29-38. *)
Record GeneratePayload : Type := mkGeneratePayload {
  pl_model : string;
  pl_prompt : string;
  pl_stream : bool;
  pl_num_predict : Z;
  pl_temperature : float;
  pl_top_p : Z
}.

(** What [requests.post] followed by [raise_for_status] and the read of one
    field of [response.json()] can give: the field (or its absence), or a
    [requests.exceptions.RequestException] whose [str] is [msg]. *)
Inductive http_reply (A : Type) : Type :=
  | Reply (field : option A)
  | RequestException (msg : string).
Arguments Reply {A} field.
Arguments RequestException {A} msg.

(** Calls that leave the process, in the order they are made. *)
Inductive event : Type :=
  | EvPineconeInit
  | EvEmbeddingsPost (url model prompt : string)
  | EvIndexQuery (vector : list float) (top_k : Z)
  | EvGeneratePost (url : string) (payload : GeneratePayload).

(** The settings read from the process environment and the collaborators:
    Pinecone, the index behind it, and the two Ollama end points. *)
Record Env : Type := mkEnv {
  LLM_PROVIDER : string;
  OLLAMA_BASE_URL : string;
  OLLAMA_MODEL : string;
  LLAMA_MODEL : string;
  pinecone_connect : result unit;
  index_query : list float -> Z -> result (list Match);
  post_embeddings : string -> string -> string -> http_reply (list float);
  post_generate : string -> GeneratePayload -> http_reply string
}.

(** Computations that log their external calls and may raise. *)
Definition M (A : Type) : Type := list event -> list event * result A.

#[export] Instance M_ret : MRet M := fun A a log => (log, Ok a).

#[export] Instance M_bind : MBind M := fun A B f m log =>
  match m log with
  | (log', Ok a) => f a log'
  | (log', Raise e) => (log', Raise e)
  end.

Definition raise {A : Type} (e : exn) : M A := fun log => (log, Raise e).

Definition lift {A : Type} (r : result A) : M A := fun log => (log, r).

Definition emit (e : event) : M unit := fun log => (log ++ [e], Ok tt).

(** Runs a computation from an empty log. *)
Definition run {A : Type} (m : M A) : list event * result A := m [].

(** The prompts that reached the Generator. *)
Definition generator_prompts (log : list event) : list string :=
  omap (fun e => match e with
                 | EvGeneratePost _ payload => Some (pl_prompt payload)
                 | _ => None
                 end) log.

(** ** llm/providers.py *)

(** [OllamaProvider]: the two attributes set by [__init__]. *)
Record OllamaProvider : Type := mkOllamaProvider {
  base_url : string;
  model : string
}.

(** The implementations of the abstract class [LLMProvider]. *)
Inductive LLMProvider : Type :=
  | Ollama (p : OllamaProvider).

(** [OllamaProvider] applied to the keyword dict [config]: [__init__] takes [base_url] and [model],
    both with defaults; any other keyword is a [TypeError] (the
    interpreter's message, which names the keyword, is not modelled). *)
Definition OllamaProvider_init (config : gmap string string) : result LLMProvider :=
  if bool_decide (dom config ⊆ ({[ "base_url"; "model" ]} : gset string))
  then Ok (Ollama {| base_url := dict_get config "base_url" "http://localhost:11434";
                     model := dict_get config "model" "llama3.2" |})
  else Raise (TypeError "__init__() got an unexpected keyword argument").

(** The table of line 50, in insertion order. *)
Definition providers : list (string * (gmap string string -> result LLMProvider)) :=
  [ ("ollama", OllamaProvider_init) ].

(** [list(providers.keys())] *)
Definition provider_names : list string := map fst providers.

(** [providers[name]], when the key is there. *)
Fixpoint table_lookup {A : Type} (name : string) (table : list (string * A)) : option A :=
  match table with
  | [] => None
  | (k, v) :: rest => if String.eqb k name then Some v else table_lookup name rest
  end.

(** [get_llm_provider], lines 48-57. *)
Definition get_llm_provider (provider_name : string) (config : gmap string string)
    : result LLMProvider :=
  match table_lookup provider_name providers with
  | None =>
      Raise (ValueError ("Unknown provider: " +:+ provider_name +:+
                         ". Available: " +:+ Py.repr_list provider_names))
  | Some implementation => implementation config
  end.

Section Pipeline.

Variable env : Env.

(** [OllamaProvider.generate], lines 25-45.  A reply without the
    [response] key is a [KeyError], which the [except] clause does not
    catch. *)
Definition Ollama_generate (self : OllamaProvider) (prompt : string)
    (max_tokens : Z) (temperature : float) (top_p : Z) : M string :=
  let url := base_url self +:+ "/api/generate" in
  let payload :=
    {| pl_model := model self; pl_prompt := prompt; pl_stream := false;
       pl_num_predict := max_tokens; pl_temperature := temperature;
       pl_top_p := top_p |} in
  _ ← emit (EvGeneratePost url payload);
  match post_generate env url payload with
  | Reply (Some response) => mret (Py.strip response)
  | Reply None => raise (KeyError "response")
  | RequestException msg => raise (Exception ("Ollama API error: " +:+ msg))
  end.

(** [llm.generate(...)], dispatched on the implementation. *)
Definition generate (llm : LLMProvider) (prompt : string)
    (max_tokens : Z) (temperature : float) (top_p : Z) : M string :=
  match llm with
  | Ollama p => Ollama_generate p prompt max_tokens temperature top_p
  end.

(** ** embedding/embed_texts.py *)

(** The loop of [get_embeddings], lines 25-41 (the progress lines it
    prints are not modelled). *)
Fixpoint embed_loop (url model : string) (texts : list string)
    (embeddings : list (list float)) : M (list (list float)) :=
  match texts with
  | [] => mret embeddings
  | text :: rest =>
      _ ← emit (EvEmbeddingsPost url model text);
      match post_embeddings env url model text with
      | Reply (Some embedding) => embed_loop url model rest (embeddings ++ [embedding])
      | Reply None => raise (Exception "Unexpected response format from Ollama: 'embedding'")
      | RequestException msg => raise (Exception ("Ollama embedding API error: " +:+ msg))
      end
  end.

Definition get_embeddings (texts : list string) (model : option string)
    : M (list (list float)) :=
  let model := default (OLLAMA_MODEL env) model in
  let url := OLLAMA_BASE_URL env +:+ "/api/embeddings" in
  embed_loop url model texts [].

(** ** vector_db/vector_store.py *)

(** [init_pinecone]: the client, the index creation when it is missing and
    the handle are one call to the collaborator. *)
Definition init_pinecone : M unit :=
  _ ← emit EvPineconeInit;
  lift (pinecone_connect env).

(** [query_similar] without a filter: [result.matches]. *)
Definition query_similar (index : unit) (vector : list float) (top_k : Z)
    : M (list Match) :=
  _ ← emit (EvIndexQuery vector top_k);
  lift (index_query env vector top_k).

(** ** rag_core/generate_answer.py: the orchestrator *)

(** [get_llm], lines 16-21. *)
Definition get_llm : M LLMProvider :=
  if String.eqb (LLM_PROVIDER env) "ollama"
  then lift (get_llm_provider "ollama"
               (<["base_url" := OLLAMA_BASE_URL env]>
                  (<["model" := LLAMA_MODEL env]> ∅)))
  else raise (ValueError ("Unknown LLM provider: " +:+ LLM_PROVIDER env +:+
                          ". Available: 'ollama'")).

(** [generate_llm_answer], lines 35-47; the two penalties land in
    [**kwargs], which [generate] reads only for [top_p]. *)
Definition generate_llm_answer (prompt : string) (max_tokens : Z) : M string :=
  llm ← get_llm;
  generate llm prompt max_tokens 0x1.999999999999ap-3%float 1.

(** [xs[0]] *)
Definition first_item {A : Type} (xs : list A) : M A :=
  match xs with
  | x :: _ => mret x
  | [] => raise (IndexError "list index out of range")
  end.

Definition NO_MATCH_ANSWER : string := "No relevant emails found for your question.".

(** [generate_answer], lines 49-121. *)
Definition generate_answer (question : string) : M (string * list Source) :=
  index ← init_pinecone;
  embeddings ← get_embeddings [question] None;
  question_embedding ← first_item embeddings;
  matches ← query_similar index question_embedding TOP_K_RESULTS;
  match matches with
  | [] => mret (NO_MATCH_ANSWER, [])
  | _ :: _ =>
      let '(email_contexts, source_emails) := collect matches in
      let prompt := bounded_prompt question email_contexts in
      answer ← generate_llm_answer prompt 512;
      mret (answer, source_emails)
  end.

End Pipeline.

(** ** email_ingest/fetch_email.py *)

(** [re.sub(r'<[^>]+>', '', text)].  [tag_end rest] looks for the first
    ['>'] after a ['<']: the tag matches when at least one other character
    stands before it, and the result is the number of characters to drop
    after the ['<']. *)
Fixpoint index_of_gt (s : string) : option nat :=
  match s with
  | EmptyString => None
  | String c rest =>
      if Ascii.eqb c ">" then Some 0%nat else S <$> index_of_gt rest
  end.

Definition tag_end (rest : string) : option nat :=
  match index_of_gt rest with
  | Some (S i) => Some (S (S i))
  | _ => None
  end.

Fixpoint remove_tags (skip : nat) (s : string) : string :=
  match s with
  | EmptyString => EmptyString
  | String c rest =>
      match skip with
      | S skip' => remove_tags skip' rest
      | O =>
          if Ascii.eqb c "<" then
            match tag_end rest with
            | Some n => remove_tags n rest
            | None => String c (remove_tags O rest)
            end
          else String c (remove_tags O rest)
      end
  end.

(** [re.sub(r'\s+', ' ', text)]: [in_run] tells that the previous
    character was white space, already replaced. *)
Fixpoint collapse_spaces (in_run : bool) (s : string) : string :=
  match s with
  | EmptyString => EmptyString
  | String c rest =>
      if Py.is_space c
      then if in_run then collapse_spaces true rest
           else String " " (collapse_spaces true rest)
      else String c (collapse_spaces false rest)
  end.

(** [clean_text], lines 8-23. *)
Definition clean_text (text : string) : string :=
  let text := remove_tags O text in
  Py.strip (collapse_spaces false text).

(** A message part as the Gmail API gives it: a dict whose keys [mimeType],
    [body] and [parts] may each be missing; [body] is a dict whose key
    [data] may be missing. *)
Record Body : Type := mkBody { data : option string }.

#[warning="-register-all"]
Inductive Payload : Type :=
  | mkPayload (mimeType : option string) (body : option Body)
      (parts : option (list Payload)).

Definition mimeType_of (p : Payload) : option string :=
  match p with mkPayload m _ _ => m end.

Definition body_of (p : Payload) : option Body :=
  match p with mkPayload _ b _ => b end.

Definition parts_of (p : Payload) : option (list Payload) :=
  match p with mkPayload _ _ ps => ps end.

(** [s.startswith(prefix)] *)
Definition startswith (s pre : string) : bool := String.prefix pre s.

Section Extract.

(** [base64.urlsafe_b64decode(data).decode('utf-8', errors='ignore')]:
    library code; it raises on wrong padding. *)
Variable decode_text : string -> result string.

(** Lines 34-36 and 45-47. *)
Definition decoded_body (d : string) : result string :=
  match decode_text d with
  | Ok text => Ok (clean_text text)
  | Raise e => Raise e
  end.

(** [part.get('mimeType') == 'text/plain' and 'data' in part['body']]:
    the subscript is evaluated only for a text/plain part, and raises when
    the part has no body.  The result is the data when the test holds. *)
Definition plain_data_of_part (part : Payload) : result (option string) :=
  if bool_decide (mimeType_of part = Some "text/plain")
  then match body_of part with
       | None => Raise (KeyError "body")
       | Some b => Ok (data b)
       end
  else Ok None.

(** [payload.get('mimeType') == 'text/plain' and
     'data' in payload.get('body', {})] *)
Definition plain_data_of_single (payload : Payload) : option string :=
  if bool_decide (mimeType_of payload = Some "text/plain")
  then match body_of payload with
       | None => None
       | Some b => data b
       end
  else None.

(** [part.get('mimeType', '').startswith('multipart/')] *)
Definition is_multipart (part : Payload) : bool :=
  startswith (default EmptyString (mimeType_of part)) "multipart/".

(** [extract_email_body], lines 25-48. *)
Fixpoint extract_email_body (payload : Payload) : result string :=
  match payload with
  | mkPayload _ _ (Some parts) =>
      (fix loop (ps : list Payload) : result string :=
         match ps with
         | [] => Ok EmptyString
         | part :: rest =>
             match plain_data_of_part part with
             | Raise e => Raise e
             | Ok (Some d) => decoded_body d
             | Ok None =>
                 if is_multipart part then
                   match extract_email_body part with
                   | Raise e => Raise e
                   | Ok text => if Py.truthy text then Ok text else loop rest
                   end
                 else loop rest
             end
         end) parts
  | mkPayload _ _ None =>
      match plain_data_of_single payload with
      | Some d => decoded_body d
      | None => Ok EmptyString
      end
  end.

End Extract.

(** ** A decoder for the examples

    [base64.urlsafe_b64decode] on a [str], as [binascii.a2b_base64] does it
    without validation: ['-'] and ['_'] stand for ['+'] and ['/'],
    characters outside the alphabet are skipped, a complete pad sequence
    ends the input, and data that stops inside a quad is an error. *)

Definition b64_value (c : ascii) : option Z :=
  let n := Z.of_nat (nat_of_ascii c) in
  if (65 <=? n) && (n <=? 90) then Some (n - 65)
  else if (97 <=? n) && (n <=? 122) then Some (n - 71)
  else if (48 <=? n) && (n <=? 57) then Some (n + 4)
  else if (n =? 43) || (n =? 45) then Some 62
  else if (n =? 47) || (n =? 95) then Some 63
  else None.

Fixpoint a2b_base64 (s : string) (quad_pos : nat) (leftchar : Z) (pads : nat)
    (out : list Z) : result (list Z) :=
  match s with
  | EmptyString =>
      match quad_pos with
      | O => Ok out
      | 1%nat =>
          Raise (BinasciiError
                   ("Invalid base64-encoded string: number of data characters ("
                    +:+ pretty (Z.of_nat (length out) / 3 * 4 + 1)
                    +:+ ") cannot be 1 more than a multiple of 4"))
      | _ => Raise (BinasciiError "Incorrect padding")
      end
  | String c rest =>
      if Ascii.eqb c "=" then
        if (2 <=? quad_pos)%nat then
          if (4 <=? quad_pos + S pads)%nat then Ok out
          else a2b_base64 rest quad_pos leftchar (S pads) out
        else a2b_base64 rest quad_pos leftchar pads out
      else
        match b64_value c with
        | None => a2b_base64 rest quad_pos leftchar pads out
        | Some v =>
            match quad_pos with
            | O => a2b_base64 rest 1%nat v O out
            | 1%nat =>
                a2b_base64 rest 2%nat (Z.land v 15) O
                  (out ++ [Z.lor (Z.shiftl leftchar 2) (Z.shiftr v 4)])
            | 2%nat =>
                a2b_base64 rest 3%nat (Z.land v 3) O
                  (out ++ [Z.lor (Z.shiftl leftchar 4) (Z.shiftr v 2)])
            | _ =>
                a2b_base64 rest O 0 O (out ++ [Z.lor (Z.shiftl leftchar 6) v])
            end
        end
  end.

Definition is_ascii_str (s : string) : bool :=
  forallb (fun c => (nat_of_ascii c <? 128)%nat) (list_ascii_of_string s).

(** [bytes.decode('utf-8', errors='ignore')] as far as [string] can
    hold the result: an ASCII byte is its character, the two-byte
    sequences of U+0080 to U+00FF are decoded, and a byte that does not
    start or continue a character is dropped, as [errors='ignore'] does.
    A character above U+00FF has no image in [string]; its bytes are
    dropped too. *)
Fixpoint utf8_chars (bytes : list Z) : list ascii :=
  match bytes with
  | [] => []
  | b :: rest =>
      if b <? 128 then ascii_of_nat (Z.to_nat b) :: utf8_chars rest
      else if (b =? 194) || (b =? 195) then
        match rest with
        | b2 :: rest' =>
            if (128 <=? b2) && (b2 <=? 191)
            then ascii_of_nat
                   (Z.to_nat (Z.lor (Z.shiftl (Z.land b 31) 6) (Z.land b2 63)))
                 :: utf8_chars rest'
            else utf8_chars rest
        | [] => []
        end
      else utf8_chars rest
  end.

Definition decode_utf8_ignore (bytes : list Z) : string :=
  string_of_list_ascii (utf8_chars bytes).

Definition urlsafe_b64decode_text (data : string) : result string :=
  if is_ascii_str data then
    match a2b_base64 data O 0 O [] with
    | Ok bytes => Ok (decode_utf8_ignore bytes)
    | Raise e => Raise e
    end
  else Raise (ValueError "string argument should contain only ASCII characters").

(** ** Vocabulary of the specification *)

(** The summed length of a sequence of context blocks. *)
Definition total_len (contexts : list string) : Z :=
  foldr (fun c acc => Py.len c + acc) 0 contexts.

(** The context blocks of a match list, in the order of the matches. *)
Definition contexts_of (matches : list Match) : list string :=
  map (fun m => context_block (match_metadata m)) matches.

(** The budget left for context blocks, line 105. *)
Definition available_for (question : string) : Z :=
  MAX_CONTEXT_LENGTH - Py.len question - 100.

(** The greedy selection in the words of the specification: walk the
    blocks in order and stop at the first one that would make the
    accumulated length exceed the available budget. *)
Fixpoint spec_take (available current : Z) (contexts : list string) : list string :=
  match contexts with
  | [] => []
  | c :: rest =>
      if available <? current + Py.len c then []
      else c :: spec_take available (current + Py.len c) rest
  end.

Definition spec_included (question : string) (contexts : list string) : list string :=
  spec_take (available_for question) 0 contexts.

(** The context block in the words of the specification. *)
Definition spec_field (metadata : gmap string string) (key : string) : string :=
  match metadata !! key with
  | Some value => value
  | None => "N/A"
  end.

Definition spec_content (metadata : gmap string string) : string :=
  match metadata !! "body_preview" with
  | Some (String c s) => String c s
  | _ => match metadata !! "snippet" with
         | Some snippet => snippet
         | None => EmptyString
         end
  end.

Definition spec_context_block (metadata : gmap string string) : string :=
  Py.join EmptyString
    [ "Subject: " +:+ spec_field metadata "subject" +:+ Py.LF;
      "From: " +:+ spec_field metadata "from" +:+ Py.LF;
      "Date: " +:+ spec_field metadata "date" +:+ Py.LF;
      "Content: " +:+ spec_content metadata +:+ Py.LF ].

(** The retrieval half of a query went through: Pinecone answered, the
    question was embedded as [v], and the index returned [matches]. *)
Definition retrieves (env : Env) (question : string) (v : list float)
    (matches : list Match) : Prop :=
  pinecone_connect env = Ok tt /\
  post_embeddings env (OLLAMA_BASE_URL env +:+ "/api/embeddings")
    (OLLAMA_MODEL env) question = Reply (Some v) /\
  index_query env v TOP_K_RESULTS = Ok matches.

(** The request [generate_llm_answer] sends for a prompt. *)
Definition generate_request (env : Env) (prompt : string) : GeneratePayload :=
  {| pl_model := LLAMA_MODEL env; pl_prompt := prompt; pl_stream := false;
     pl_num_predict := 512; pl_temperature := 0x1.999999999999ap-3%float;
     pl_top_p := 1 |}.

Definition generate_url (env : Env) : string :=
  OLLAMA_BASE_URL env +:+ "/api/generate".

(** The configured Generator is Ollama and it replies [response] to
    [prompt]. *)
Definition generator_replies (env : Env) (prompt response : string) : Prop :=
  LLM_PROVIDER env = "ollama" /\
  post_generate env (generate_url env) (generate_request env prompt)
    = Reply (Some response).

(** The log of a query that reaches the index and stops there. *)
Definition retrieval_log (env : Env) (question : string) (v : list float)
    : list event :=
  [ EvPineconeInit;
    EvEmbeddingsPost (OLLAMA_BASE_URL env +:+ "/api/embeddings")
      (OLLAMA_MODEL env) question;
    EvIndexQuery v TOP_K_RESULTS ].

(** Body extraction in the words of the specification: the data of the
    first text/plain leaf met by a depth-first walk that looks at the parts
    in order and descends into the multipart ones. *)
Fixpoint first_plain_leaf (payload : Payload) : option string :=
  match payload with
  | mkPayload _ _ (Some parts) =>
      (fix walk (ps : list Payload) : option string :=
         match ps with
         | [] => None
         | part :: rest =>
             match plain_data_of_single part with
             | Some d => Some d
             | None =>
                 if is_multipart part then
                   match first_plain_leaf part with
                   | Some d => Some d
                   | None => walk rest
                   end
                 else walk rest
             end
         end) parts
  | mkPayload _ _ None => plain_data_of_single payload
  end.

Definition spec_extract (decode_text : string -> result string)
    (payload : Payload) : result string :=
  match first_plain_leaf payload with
  | Some d => decoded_body decode_text d
  | None => Ok EmptyString
  end.

(** Every text/plain part listed under [parts], at any depth the search
    reaches, has a [body] key. *)
Fixpoint parts_have_body (payload : Payload) : Prop :=
  match payload with
  | mkPayload _ _ (Some parts) =>
      (fix all (ps : list Payload) : Prop :=
         match ps with
         | [] => True
         | part :: rest =>
             (mimeType_of part = Some "text/plain" -> body_of part <> None) /\
             (is_multipart part = true -> parts_have_body part) /\
             all rest
         end) parts
  | mkPayload _ _ None => True
  end.

(** The data of the text/plain leaves the search can reach, in the order
    of the walk. *)
Fixpoint plain_leaves (payload : Payload) : list string :=
  match payload with
  | mkPayload _ _ (Some parts) =>
      (fix walk (ps : list Payload) : list string :=
         match ps with
         | [] => []
         | part :: rest =>
             match plain_data_of_single part with
             | Some d => d :: walk rest
             | None =>
                 if is_multipart part then plain_leaves part ++ walk rest
                 else walk rest
             end
         end) parts
  | mkPayload _ _ None =>
      match plain_data_of_single payload with
      | Some d => [d]
      | None => []
      end
  end.


(** ** Concrete data for the examples *)

(** An environment whose collaborators all answer: the index returns
    [matches] whatever the vector, the Generator replies [response]. *)
Definition demo_env (matches : list Match) (response : string) : Env :=
  {| LLM_PROVIDER := "ollama";
     OLLAMA_BASE_URL := "http://localhost:11434";
     OLLAMA_MODEL := "nomic-embed-text";
     LLAMA_MODEL := "llama3.2";
     pinecone_connect := Ok tt;
     index_query := fun _ _ => Ok matches;
     post_embeddings := fun _ _ _ => Reply (Some []);
     post_generate := fun _ _ => Reply (Some response) |}.

(** A match whose metadata holds only a body preview of [n] letters. *)
Definition preview_match (id : string) (n : nat) : Match :=
  {| match_id := id; match_score := 0x1p-1%float;
     match_metadata := {[ "body_preview" := Py.times "x" n ]} |}.

(** ** The loops of the extraction, named

    The walk over [parts] inside each of the four functions on payloads,
    as a function of its own; each is the inner loop of its function, by
    computation (see the [_node] lemmas). *)

Fixpoint extract_parts (decode_text : string -> result string)
    (ps : list Payload) : result string :=
  match ps with
  | [] => Ok EmptyString
  | part :: rest =>
      match plain_data_of_part part with
      | Raise e => Raise e
      | Ok (Some d) => decoded_body decode_text d
      | Ok None =>
          if is_multipart part then
            match extract_email_body decode_text part with
            | Raise e => Raise e
            | Ok text =>
                if Py.truthy text then Ok text else extract_parts decode_text rest
            end
          else extract_parts decode_text rest
      end
  end.

Fixpoint first_plain_leaf_parts (ps : list Payload) : option string :=
  match ps with
  | [] => None
  | part :: rest =>
      match plain_data_of_single part with
      | Some d => Some d
      | None =>
          if is_multipart part then
            match first_plain_leaf part with
            | Some d => Some d
            | None => first_plain_leaf_parts rest
            end
          else first_plain_leaf_parts rest
      end
  end.

Fixpoint plain_leaves_parts (ps : list Payload) : list string :=
  match ps with
  | [] => []
  | part :: rest =>
      match plain_data_of_single part with
      | Some d => d :: plain_leaves_parts rest
      | None =>
          if is_multipart part then plain_leaves part ++ plain_leaves_parts rest
          else plain_leaves_parts rest
      end
  end.

Fixpoint parts_have_body_parts (ps : list Payload) : Prop :=
  match ps with
  | [] => True
  | part :: rest =>
      (mimeType_of part = Some "text/plain" -> body_of part <> None) /\
      (is_multipart part = true -> parts_have_body part) /\
      parts_have_body_parts rest
  end.

(** Induction on payload trees: a property that holds of a payload
    without [parts], and of a payload with [parts] when it holds of each
    part, holds of every payload. *)
Section PayloadInduction.

Variable P : Payload -> Prop.
Hypothesis P_single : forall m b, P (mkPayload m b None).
Hypothesis P_parts : forall m b ps, Forall P ps -> P (mkPayload m b (Some ps)).

Fixpoint Payload_tree_ind (payload : Payload) : P payload :=
  match payload with
  | mkPayload m b None => P_single m b
  | mkPayload m b (Some ps) =>
      P_parts m b ps
        ((fix all (l : list Payload) : Forall P l :=
            match l with
            | [] => @List.Forall_nil _ P
            | part :: rest =>
                @List.Forall_cons _ P part rest (Payload_tree_ind part) (all rest)
            end) ps)
  end.

End PayloadInduction.

(** A leaf part with inline data. *)
Definition leaf (mime data : string) : Payload :=
  mkPayload (Some mime) (Some {| data := Some data |}) None.

(** A container part. *)
Definition container (mime : string) (parts : list Payload) : Payload :=
  mkPayload (Some mime) (Some {| data := None |}) (Some parts).

(** A message with a text and an HTML alternative and an inline footer:
    the text alternative says "Hello <b>world</b>" over two lines, the
    footer says "Footer". *)
Definition message_with_footer : Payload :=
  container "multipart/mixed"
    [ container "multipart/alternative"
        [ leaf "text/plain" "SGVsbG8gPGI-d29ybGQ8L2I-ICAKIHRoZXJl";
          leaf "text/html" "PHA-SGk8L3A-" ];
      leaf "text/plain" "Rm9vdGVy" ].

(** The same message when its text alternative is a lone line break. *)
Definition message_with_blank_text : Payload :=
  container "multipart/mixed"
    [ container "multipart/alternative"
        [ leaf "text/plain" "DQo=";
          leaf "text/html" "PHA-SGk8L3A-" ];
      leaf "text/plain" "Rm9vdGVy" ].

(** ** vector_db/vector_store.py: preparing the vectors *)

(** [s[:n]] *)
Fixpoint str_take (n : nat) (s : string) : string :=
  match n, s with
  | S n', String c rest => String c (str_take n' rest)
  | _, _ => EmptyString
  end.

(** One element of the list handed to [index.upsert]. *)
Record Vector : Type := mkVector {
  vec_id : string;
  vec_values : list float;
  vec_metadata : gmap string string
}.

(** Lines 75-85: the six fields, then the comprehension that keeps the
    entries whose value is true, that is, not the empty string. *)
Definition email_metadata (email : gmap string string) : gmap string string :=
  let metadata : gmap string string :=
    <["subject" := dict_get email "subject" EmptyString]>
    (<["snippet" := str_take 500 (dict_get email "snippet" EmptyString)]>
    (<["from" := dict_get email "from" EmptyString]>
    (<["date" := dict_get email "date" EmptyString]>
    (<["threadId" := dict_get email "threadId" EmptyString]>
    (<["body_preview" := str_take 1000 (dict_get email "body" EmptyString)]> ∅))))) in
  filter (fun kv => Py.truthy kv.2 = true) metadata.

(** The loop of [prepare_email_vectors], lines 72-93, over
    [zip(emails, embeddings)]; [email['id']] raises when the key is
    missing. *)
Fixpoint prepare_loop (emails : list (gmap string string))
    (embeddings : list (list float)) (vectors : list Vector)
    : result (list Vector) :=
  match emails, embeddings with
  | email :: emails', embedding :: embeddings' =>
      let metadata := email_metadata email in
      match email !! "id" with
      | None => Raise (KeyError "id")
      | Some id =>
          prepare_loop emails' embeddings'
            (vectors ++ [ {| vec_id := id; vec_values := embedding;
                             vec_metadata := metadata |} ])
      end
  | _, _ => Ok vectors
  end.

Definition prepare_email_vectors (emails : list (gmap string string))
    (embeddings : list (list float)) : result (list Vector) :=
  prepare_loop emails embeddings [].

(** ** main.py: the texts to embed *)

(** The loop of [ingest_emails], lines 66-74: [texts] and [valid_emails]
    grow together; [email['subject']] is read only for an email that is
    kept, and raises when the key is missing. *)
Fixpoint select_loop (emails : list (gmap string string))
    (texts : list string) (valid_emails : list (gmap string string))
    : result (list string * list (gmap string string)) :=
  match emails with
  | [] => Ok (texts, valid_emails)
  | email :: rest =>
      let content := Py.get_or (email !! "body") (dict_get email "snippet" EmptyString) in
      if Py.truthy (Py.strip content) then
        match email !! "subject" with
        | None => Raise (KeyError "subject")
        | Some subject =>
            select_loop rest
              (texts ++ [ "Subject: " +:+ subject +:+ Py.LF +:+ Py.LF +:+
                          "Content: " +:+ content ])
              (valid_emails ++ [email])
        end
      else select_loop rest texts valid_emails
  end.

Definition select_contents (emails : list (gmap string string))
    : result (list string * list (gmap string string)) :=
  select_loop emails [] [].

(** The content an email is embedded with, and whether it is kept. *)
Definition email_content (email : gmap string string) : string :=
  Py.get_or (email !! "body") (dict_get email "snippet" EmptyString).

Definition has_content (email : gmap string string) : bool :=
  Py.truthy (Py.strip (email_content email)).

(** ** email_ingest/fetch_email.py: fetching *)

(** What [messages().get(..., format='full')] returns, as far as
    [fetch_emails] reads it: [threadId], [snippet], [payload], and in the
    payload the [headers] beside the keys of [Payload]; each may be
    missing.  A header is a name and a value. *)
Record MessageDetail : Type := mkMessageDetail {
  detail_threadId : option string;
  detail_snippet : option string;
  detail_headers : option (list (string * string));
  detail_payload : option Payload
}.

(** The Gmail client: [messages().list(...).execute()] gives the ids
    under [messages] (the key is absent when nothing matches) and
    [messages().get(...).execute()] gives the details; both may raise. *)
Record GmailService : Type := mkGmailService {
  messages_list : string -> string -> Z -> result (option (list string));
  messages_get : string -> string -> result MessageDetail
}.

(** [next((h['value'] for h in headers if h['name'] == name), dflt)] *)
Fixpoint header_value (name dflt : string) (headers : list (string * string))
    : string :=
  match headers with
  | [] => dflt
  | (n, value) :: rest =>
      if String.eqb n name then value else header_value name dflt rest
  end.

(** [query.encode('ascii', 'ignore').decode('ascii')] *)
Definition ascii_only (query : string) : string :=
  string_of_list_ascii
    (List.filter (fun c => (nat_of_ascii c <? 128)%nat) (list_ascii_of_string query)).

(** The dict appended to [emails], lines 89-97. *)
Definition make_email (id : string) (detail : MessageDetail) (body : string)
    : gmap string string :=
  let headers := default [] (detail_headers detail) in
  <["id" := id]>
  (<["threadId" := default EmptyString (detail_threadId detail)]>
  (<["subject" := header_value "Subject" "(No Subject)" headers]>
  (<["date" := header_value "Date" EmptyString headers]>
  (<["from" := header_value "From" EmptyString headers]>
  (<["snippet" := default EmptyString (detail_snippet detail)]>
  (<["body" := body]> ∅)))))).

(** [msg_detail.get('payload', {})] *)
Definition payload_or_empty (detail : MessageDetail) : Payload :=
  default (mkPayload None None None) (detail_payload detail).

(** The requests made to the Gmail client, in the order they are made. *)
Inductive gmail_call : Type :=
  | CallList (user_id query : string) (max_results : Z)
  | CallGet (user_id id : string).

Section Fetch.

Variable service : GmailService.
Variable decode_text : string -> result string.

(** The loop of lines 78-97 inside the [try]: an exception of the client
    or of the extraction ends it, and the [except] clauses, which only
    print, let [fetch_emails] return what was collected.  [calls] is the
    log of the requests made so far. *)
Fixpoint fetch_loop (user_id : string) (messages : list string)
    (emails : list (gmap string string)) (calls : list gmail_call)
    : list gmail_call * list (gmap string string) :=
  match messages with
  | [] => (calls, emails)
  | id :: rest =>
      let calls := calls ++ [CallGet user_id id] in
      match messages_get service user_id id with
      | Raise _ => (calls, emails)
      | Ok msg_detail =>
          match extract_email_body decode_text (payload_or_empty msg_detail) with
          | Raise _ => (calls, emails)
          | Ok body =>
              fetch_loop user_id rest (emails ++ [make_email id msg_detail body]) calls
          end
      end
  end.

(** [fetch_emails], lines 58-105: the requests it made and the list it
    returns. *)
Definition fetch_emails (user_id query : string) (max_results : Z)
    : list gmail_call * list (gmap string string) :=
  let query := if Py.truthy query then ascii_only query else query in
  let calls := [CallList user_id query max_results] in
  match messages_list service user_id query max_results with
  | Raise _ => (calls, [])
  | Ok results => fetch_loop user_id (default [] results) [] calls
  end.

End Fetch.

(** ** config/settings.py: validation *)

Module Config.

(** The settings [validate_config] reads, and whether the credentials
    file exists; [os.getenv] gives [None] for an unset variable. *)
Record Settings : Type := mkSettings {
  LLM_PROVIDER : string;
  PINECONE_API_KEY : option string;
  PINECONE_ENV : option string;
  REPLICATE_API_TOKEN : option string;
  credentials_exist : bool
}.

Inductive error : Type :=
  | ValueError (msg : string)
  | FileNotFoundError (msg : string).

Inductive outcome : Type :=
  | Returns (value : bool)
  | Raises (e : error).

Definition GMAIL_CREDENTIALS_PATH : string := "auth/credentials/credentials.json".

(** [not value] for a setting: unset or empty. *)
Definition unset (value : option string) : bool :=
  match value with
  | Some s => negb (Py.truthy s)
  | None => true
  end.

(** The dict [required_vars], lines 41-48, in insertion order. *)
Definition required_vars (s : Settings) : list (string * option string) :=
  [ ("PINECONE_API_KEY", PINECONE_API_KEY s); ("PINECONE_ENV", PINECONE_ENV s) ]
  ++ (if String.eqb (LLM_PROVIDER s) "replicate"
      then [ ("REPLICATE_API_TOKEN", REPLICATE_API_TOKEN s) ] else []).

(** Line 50. *)
Definition missing_vars (s : Settings) : list string :=
  map fst (List.filter (fun kv => unset (snd kv)) (required_vars s)).

(** [validate_config], lines 39-58. *)
Definition validate_config (s : Settings) : outcome :=
  match missing_vars s with
  | _ :: _ =>
      Raises (ValueError ("Missing required environment variables: "
                          +:+ Py.join ", " (missing_vars s)))
  | [] =>
      if credentials_exist s then Returns true
      else Raises (FileNotFoundError ("Gmail credentials file not found at "
                                      +:+ GMAIL_CREDENTIALS_PATH))
  end.

End Config.

(** ** Vocabulary for the further properties *)

(** Every character is white space. *)
Fixpoint all_space (s : string) : bool :=
  match s with
  | EmptyString => true
  | String c rest => Py.is_space c && all_space rest
  end.

(** White space occurs only as a single blank between two other
    characters: [prev_space] tells that the character before was white
    space. *)
Fixpoint single_spaced (prev_space : bool) (s : string) : bool :=
  match s with
  | EmptyString => true
  | String c rest =>
      if Py.is_space c
      then Ascii.eqb c " " && negb prev_space && single_spaced true rest
      else single_spaced false rest
  end.

(** The first and the last character of a string. *)
Definition str_head (s : string) : option ascii :=
  match s with
  | EmptyString => None
  | String c _ => Some c
  end.

Fixpoint str_last (s : string) : option ascii :=
  match s with
  | EmptyString => None
  | String c EmptyString => Some c
  | String _ rest => str_last rest
  end.

(** Neither end of the string is white space. *)
Definition trimmed (s : string) : Prop :=
  (forall c, str_head s = Some c -> Py.is_space c = false) /\
  (forall c, str_last s = Some c -> Py.is_space c = false).

(** A field as a context block shows it after ingestion: the value, or
    [N/A] for the empty one. *)
Definition or_na (value : string) : string :=
  if Py.truthy value then value else "N/A".

(** The text an email that is kept is embedded with, line 73. *)
Definition email_text (email : gmap string string) : string :=
  "Subject: " +:+ dict_get email "subject" EmptyString +:+ Py.LF +:+ Py.LF +:+
  "Content: " +:+ email_content email.

(** The vector made of an email and its embedding, lines 87-91. *)
Definition vector_of (email : gmap string string) (embedding : list float) : Vector :=
  {| vec_id := dict_get email "id" EmptyString; vec_values := embedding;
     vec_metadata := email_metadata email |}.

(** The keys of a fetched email. *)
Definition email_keys : gset string :=
  {[ "id"; "threadId"; "subject"; "date"; "from"; "snippet"; "body" ]}.

(** The end point and the request of one call to the embedder. *)
Definition embeddings_url (env : Env) : string :=
  OLLAMA_BASE_URL env +:+ "/api/embeddings".

(** All that [extract_email_body] can give for one payload: a text is
    empty or the cleaned text of a leaf; an exception is the missing body
    or the decoder's, and only the decoder's when the bodies are there. *)
Definition accounted (decode_text : string -> result string)
    (leaves : list string) (r : result string)
    (bodies : Prop) : Prop :=
  match r with
  | Ok t =>
      t = EmptyString \/
      exists d, In d leaves /\ decoded_body decode_text d = Ok t
  | Raise e =>
      (e = KeyError "body" /\ ~ bodies) \/
      exists d, In d leaves /\ decode_text d = Raise e
  end.

(** A message that is fetched and whose body is extracted. *)
Definition fetched (service : GmailService) (decode_text : string -> result string)
    (user_id id : string) (detail : MessageDetail) (body : string) : Prop :=
  messages_get service user_id id = Ok detail /\
  extract_email_body decode_text (payload_or_empty detail) = Ok body.

(** A message on which the client or the extraction raises. *)
Definition fails (service : GmailService) (decode_text : string -> result string)
    (user_id id : string) : Prop :=
  (exists e, messages_get service user_id id = Raise e) \/
  (exists detail e, messages_get service user_id id = Ok detail /\
     extract_email_body decode_text (payload_or_empty detail) = Raise e).

(** The query as it is sent: without its characters outside ASCII. *)
Fixpoint drop_non_ascii (query : string) : string :=
  match query with
  | EmptyString => EmptyString
  | String c rest =>
      if (nat_of_ascii c <? 128)%nat then String c (drop_non_ascii rest)
      else drop_non_ascii rest
  end.

(** The value of the first header of a given name, if there is one. *)
Definition first_header (name : string) (headers : list (string * string))
    : option string :=
  snd <$> head (List.filter (fun h => String.eqb (fst h) name) headers).

(** The email that is made of a message: its id, its thread, the subject,
    date and sender of its headers, its snippet and its extracted body. *)
Definition fetched_email (id : string) (detail : MessageDetail) (body : string)
    : gmap string string :=
  let headers := default [] (detail_headers detail) in
  list_to_map
    [ ("id", id);
      ("threadId", default EmptyString (detail_threadId detail));
      ("subject", default "(No Subject)" (first_header "Subject" headers));
      ("date", default EmptyString (first_header "Date" headers));
      ("from", default EmptyString (first_header "From" headers));
      ("snippet", default EmptyString (detail_snippet detail));
      ("body", body) ].

(** A Gmail client that lists three messages, each a plain text saying
    "Footer" sent by a@x.com under the subject "Lunch", and fails on the
    message named [bad], if any. *)
Definition demo_detail : MessageDetail :=
  {| detail_threadId := Some "t1"; detail_snippet := Some "Foo";
     detail_headers := Some [ ("From", "a@x.com"); ("Subject", "Lunch") ];
     detail_payload := Some (leaf "text/plain" "Rm9vdGVy") |}.

Definition demo_service (bad : option string) : GmailService :=
  {| messages_list := fun _ _ _ => Ok (Some ["m1"; "m2"; "m3"]);
     messages_get := fun _ id =>
       if bool_decide (bad = Some id) then Raise (ExternalError "HttpError 500")
       else Ok demo_detail |}.

(** ** What the walk meets first *)

(** What the depth-first walk of the specification, parts in order and
    multipart parts entered, meets first: nothing; a text/plain leaf with
    data that is the message itself or is listed directly under its
    [parts]; such a leaf inside a multipart part; or a text/plain part
    that has no [body] key at all. *)
Inductive met : Type :=
  | NoLeaf
  | Direct (d : string)
  | Nested (d : string)
  | Bodyless.

(** One part, looked at by itself. *)
Definition part_met (part : Payload) : option met :=
  match mimeType_of part with
  | Some mime =>
      if String.eqb mime "text/plain" then
        match body_of part with
        | None => Some Bodyless
        | Some b =>
            match data b with
            | Some d => Some (Direct d)
            | None => None
            end
        end
      else None
  | None => None
  end.

Fixpoint first_met (payload : Payload) : met :=
  match payload with
  | mkPayload _ _ (Some parts) =>
      (fix walk (ps : list Payload) : met :=
         match ps with
         | [] => NoLeaf
         | part :: rest =>
             match part_met part with
             | Some found => found
             | None =>
                 if is_multipart part then
                   match first_met part with
                   | NoLeaf => walk rest
                   | Direct d | Nested d => Nested d
                   | Bodyless => Bodyless
                   end
                 else walk rest
             end
         end) parts
  | mkPayload _ _ None =>
      match plain_data_of_single payload with
      | Some d => Direct d
      | None => NoLeaf
      end
  end.

Fixpoint first_met_parts (ps : list Payload) : met :=
  match ps with
  | [] => NoLeaf
  | part :: rest =>
      match part_met part with
      | Some found => found
      | None =>
          if is_multipart part then
            match first_met part with
            | NoLeaf => first_met_parts rest
            | Direct d | Nested d => Nested d
            | Bodyless => Bodyless
            end
          else first_met_parts rest
      end
  end.

(** How the code's result stands to what the walk meets first. *)
Definition follows (decode_text : string -> result string)
    (found : met) (leaf : option string) (r : result string) : Prop :=
  match found with
  | NoLeaf => leaf = None /\ r = Ok EmptyString
  | Direct d => leaf = Some d /\ r = decoded_body decode_text d
  | Nested d =>
      leaf = Some d /\
      (decoded_body decode_text d <> Ok EmptyString ->
       r = decoded_body decode_text d)
  | Bodyless => True
  end.

(** A message whose blank text alternative comes after the text that is
    found, and one with a text/plain part without body after it. *)
Definition message_with_late_blank : Payload :=
  container "multipart/mixed"
    [ leaf "text/plain" "Rm9vdGVy";
      container "multipart/alternative" [ leaf "text/plain" "DQo=" ];
      mkPayload (Some "text/plain") None None ].

(** The source in the words of the specification: the projection of a
    match on its id, its score and four fields of its metadata. *)
Definition projection (m : Match) : Source :=
  {| src_id := match_id m;
     src_score := match_score m;
     src_subject := spec_field (match_metadata m) "subject";
     src_from := spec_field (match_metadata m) "from";
     src_date := spec_field (match_metadata m) "date";
     src_snippet := match match_metadata m !! "snippet" with
                    | Some snippet => snippet
                    | None => EmptyString
                    end |}.

(** The context block of a match in the words of the specification. *)
Definition rendering (m : Match) : string :=
  spec_context_block (match_metadata m).

(** Two exceptions of the same class. *)
Definition same_class (e1 e2 : exn) : bool :=
  match e1, e2 with
  | ValueError _, ValueError _ | KeyError _, KeyError _
  | TypeError _, TypeError _ | BinasciiError _, BinasciiError _
  | IndexError _, IndexError _ | Exception _, Exception _
  | ExternalError _, ExternalError _ => true
  | _, _ => false
  end.

(** * Properties *)

(** ** The collecting loop *)

Lemma collect_from (matches : list Match) (cs : list string) (ss : list Source) :
  fold_left collect_step matches (cs, ss)
  = (cs ++ contexts_of matches, ss ++ map source_of matches).
Proof.
  revert cs ss. induction matches as [|m rest IH]; intros cs ss; simpl.
  - by rewrite !app_nil_r.
  - rewrite IH. unfold contexts_of. simpl. by rewrite <- !app_assoc.
Qed.

Lemma collect_maps (matches : list Match) :
  collect matches = (contexts_of matches, map source_of matches).
Proof. unfold collect. by rewrite collect_from. Qed.

(** ** The run of the orchestrator *)

Lemma get_llm_ollama (env : Env) (log : list event) :
  LLM_PROVIDER env = "ollama" ->
  get_llm env log
  = (log, Ok (Ollama {| base_url := OLLAMA_BASE_URL env; model := LLAMA_MODEL env |})).
Proof.
  intros Hp. unfold get_llm. rewrite Hp. simpl.
  unfold lift, get_llm_provider. simpl. unfold OllamaProvider_init.
  rewrite bool_decide_eq_true_2.
  - unfold dict_get. rewrite lookup_insert_eq. rewrite lookup_insert_ne by done.
    by rewrite lookup_insert_eq.
  - rewrite !dom_insert_L. set_solver.
Qed.

Lemma retrieval_run (env : Env) (question : string) (v : list float)
    (matches : list Match) (A : Type) (k : list Match -> M A) :
  retrieves env question v matches ->
  run (index ← init_pinecone env;
       embeddings ← get_embeddings env [question] None;
       question_embedding ← first_item embeddings;
       matches ← query_similar env index question_embedding TOP_K_RESULTS;
       k matches)
  = k matches (retrieval_log env question v).
Proof.
  intros (Hpc & Hemb & Hq).
  unfold run, init_pinecone, get_embeddings, query_similar, mbind, M_bind,
    emit, lift, mret, M_ret, retrieval_log.
  simpl. rewrite Hpc. simpl. rewrite Hemb. simpl. rewrite Hq. reflexivity.
Qed.

Lemma generate_answer_no_match (env : Env) (question : string) (v : list float) :
  retrieves env question v [] ->
  run (generate_answer env question)
  = (retrieval_log env question v, Ok (NO_MATCH_ANSWER, [])).
Proof.
  intros H. unfold generate_answer.
  rewrite (retrieval_run env question v [] _ _ H). reflexivity.
Qed.

(** With matches, the log ends with one request to the Generator, whose
    prompt is [bounded_prompt] of the context blocks; the outcome is then
    decided by the Generator's reply. *)
Lemma generate_answer_log (env : Env) (question : string) (v : list float)
    (matches : list Match) :
  retrieves env question v matches -> matches <> [] ->
  LLM_PROVIDER env = "ollama" ->
  fst (run (generate_answer env question))
  = retrieval_log env question v ++
    [ EvGeneratePost (generate_url env)
        (generate_request env (bounded_prompt question (contexts_of matches))) ].
Proof.
  intros H Hne Hp. unfold generate_answer.
  rewrite (retrieval_run env question v matches _ _ H).
  destruct matches as [|m rest]; [done|].
  rewrite collect_maps.
  unfold generate_llm_answer, mbind, M_bind.
  rewrite (get_llm_ollama env _ Hp). simpl.
  unfold Ollama_generate, mbind, M_bind, emit. simpl.
  fold (generate_url env).
  change (mkGeneratePayload (LLAMA_MODEL env) ?p false 512 _ 1)
    with (generate_request env p).
  by destruct (post_generate env _ _) as [[r|]|msg].
Qed.

Lemma generate_answer_matches (env : Env) (question : string) (v : list float)
    (matches : list Match) (response : string) :
  retrieves env question v matches -> matches <> [] ->
  generator_replies env (bounded_prompt question (contexts_of matches)) response ->
  run (generate_answer env question)
  = (retrieval_log env question v ++
     [ EvGeneratePost (generate_url env)
         (generate_request env (bounded_prompt question (contexts_of matches))) ],
     Ok (Py.strip response, map source_of matches)).
Proof.
  intros H Hne [Hp Hr]. unfold generate_answer.
  rewrite (retrieval_run env question v matches _ _ H).
  destruct matches as [|m rest]; [done|].
  rewrite collect_maps.
  unfold generate_llm_answer, mbind, M_bind.
  rewrite (get_llm_ollama env _ Hp). simpl.
  unfold Ollama_generate, mbind, M_bind, emit. simpl.
  fold (generate_url env).
  change (mkGeneratePayload (LLAMA_MODEL env) ?p false 512 _ 1)
    with (generate_request env p).
  change (context_block (match_metadata m) :: contexts_of rest)
    with (contexts_of (m :: rest)).
  rewrite Hr. reflexivity.
Qed.

Lemma generator_prompts_retrieval (env : Env) (question : string) (v : list float)
    (url : string) (payload : GeneratePayload) :
  generator_prompts (retrieval_log env question v ++ [EvGeneratePost url payload])
  = [pl_prompt payload].
Proof. reflexivity. Qed.

(** ** Lengths *)

Lemma len_app (a b : string) : Py.len (a +:+ b) = Py.len a + Py.len b.
Proof.
  unfold Py.len. induction a as [|c a IH].
  - change (EmptyString +:+ b) with b. simpl. lia.
  - change (String c a +:+ b) with (String c (a +:+ b)). simpl String.length. lia.
Qed.

Lemma str_app_assoc (a b c : string) : (a +:+ b) +:+ c = a +:+ b +:+ c.
Proof.
  induction a as [|x a IH]; [reflexivity|].
  change ((String x a +:+ b) +:+ c) with (String x ((a +:+ b) +:+ c)).
  by rewrite IH.
Qed.

Lemma len_nonneg (s : string) : 0 <= Py.len s.
Proof. unfold Py.len. lia. Qed.

Lemma total_len_nonneg (l : list string) : 0 <= total_len l.
Proof.
  induction l as [|c l IH]; simpl; [lia|]. pose proof (len_nonneg c). lia.
Qed.

Lemma total_len_app (l1 l2 : list string) :
  total_len (l1 ++ l2) = total_len l1 + total_len l2.
Proof. induction l1 as [|c l1 IH]; simpl; lia. Qed.

Lemma total_len_take_S (l : list string) (k : nat) (c : string) :
  l !! k = Some c -> total_len (take (S k) l) = total_len (take k l) + Py.len c.
Proof.
  intros H. rewrite (take_S_r _ _ _ H), total_len_app. simpl. lia.
Qed.

Lemma len_join_cons (sep c : string) (l : list string) :
  Py.len (Py.join sep (c :: l))
  = Py.len c + match l with [] => 0 | _ => Py.len sep + Py.len (Py.join sep l) end.
Proof.
  destruct l as [|d l]; [simpl; lia|].
  change (Py.join sep (c :: d :: l)) with (c +:+ sep +:+ Py.join sep (d :: l)).
  by rewrite !len_app.
Qed.

Lemma len_join (sep : string) (l : list string) :
  l <> [] ->
  Py.len (Py.join sep l) = total_len l + Py.len sep * (Z.of_nat (length l) - 1).
Proof.
  induction l as [|c l IH]; [done|]. intros _.
  rewrite len_join_cons. destruct l as [|d l].
  - simpl. lia.
  - rewrite IH by done. simpl total_len. simpl length. lia.
Qed.

Lemma len_join_take (sep : string) (l : list string) (k : nat) :
  Py.len (Py.join sep (take k l)) <= Py.len (Py.join sep l).
Proof.
  revert k. induction l as [|c l IH]; intros k.
  - by rewrite take_nil.
  - destruct k as [|k]; [simpl take; simpl Py.join at 1; apply len_nonneg|].
    simpl take. rewrite !len_join_cons. specialize (IH k).
    pose proof (len_nonneg sep). pose proof (len_nonneg (Py.join sep l)).
    destruct l as [|d l]; [by rewrite take_nil|].
    destruct k as [|k]; simpl take; cbv iota; [lia|].
    simpl take in IH. lia.
Qed.

Lemma len_build_prompt (question : string) (contexts : list string) :
  Py.len (build_prompt question contexts)
  = 114 + Py.len question + Py.len (Py.join (Py.LF +:+ Py.LF) contexts).
Proof.
  unfold build_prompt. rewrite !len_app.
  change (Py.len "QUESTION:") with 9. change (Py.len "CONTEXT:") with 8.
  change (Py.len Py.LF) with 1. change (Py.len INSTRUCTION) with 91. lia.
Qed.

(** ** The truncation loop *)

(** The loop keeps what it had and adds the first [k] blocks, where [k]
    is the point at which the running total would first reach the bound. *)
Lemma truncate_loop_take (available : Z) (contexts kept : list string) (current : Z) :
  exists k : nat,
    (k <= length contexts)%nat /\
    truncate_loop available kept current contexts = kept ++ take k contexts /\
    (forall j : nat, (1 <= j <= k)%nat ->
       current + total_len (take j contexts) < available) /\
    (forall c : string, contexts !! k = Some c ->
       available <= current + total_len (take k contexts) + Py.len c).
Proof.
  revert kept current.
  induction contexts as [|c rest IH]; intros kept current.
  - exists 0%nat. simpl. rewrite app_nil_r. repeat split; [lia | intros; lia | done].
  - simpl truncate_loop.
    destruct (Z.ltb_spec (current + Py.len c) available) as [Hlt|Hge].
    + destruct (IH (kept ++ [c]) (current + Py.len c)) as (k & Hk & Heq & Hin & Hout).
      exists (S k). simpl length. split; [lia|]. split.
      { rewrite Heq. simpl take. by rewrite <- app_assoc. }
      split.
      * intros j Hj. destruct j as [|j]; [lia|]. simpl take. simpl total_len.
        destruct j as [|j].
        { rewrite take_0. simpl. lia. }
        specialize (Hin (S j)). lia.
      * intros d Hd. simpl in Hd. specialize (Hout d Hd).
        simpl take. simpl total_len. lia.
    + exists 0%nat. simpl. rewrite app_nil_r. repeat split; [lia | intros; lia |].
      intros d Hd. injection Hd as <-. lia.
Qed.

Lemma truncate_contexts_take (question : string) (contexts : list string) :
  exists k : nat,
    (k <= length contexts)%nat /\
    truncate_contexts question contexts = take k contexts /\
    (forall j : nat, (1 <= j <= k)%nat ->
       total_len (take j contexts) < available_for question) /\
    (forall c : string, contexts !! k = Some c ->
       available_for question <= total_len (take k contexts) + Py.len c).
Proof.
  destruct (truncate_loop_take (available_for question) contexts [] 0)
    as (k & Hk & Heq & Hin & Hout).
  exists k. repeat split; [done | done | |].
  - intros j Hj. specialize (Hin j Hj). lia.
  - intros c Hc. specialize (Hout c Hc). lia.
Qed.

Lemma bounded_prompt_fits (question : string) (contexts : list string) :
  Py.len (build_prompt question contexts) <= MAX_CONTEXT_LENGTH ->
  bounded_prompt question contexts = build_prompt question contexts.
Proof.
  intros H. unfold bounded_prompt.
  destruct (Z.ltb_spec MAX_CONTEXT_LENGTH (Py.len (build_prompt question contexts)));
    [lia | done].
Qed.

Lemma bounded_prompt_exceeds (question : string) (contexts : list string) :
  MAX_CONTEXT_LENGTH < Py.len (build_prompt question contexts) ->
  bounded_prompt question contexts
  = build_prompt question (truncate_contexts question contexts).
Proof.
  intros H. unfold bounded_prompt.
  destruct (Z.ltb_spec MAX_CONTEXT_LENGTH (Py.len (build_prompt question contexts)));
    [done | lia].
Qed.

(** ** Zero matches *)

(** C1. When the index returns no match, [generate_answer] returns the
    pair made of the sentence "No relevant emails found for your question."
    and the empty source list, as a value and not as a raised exception, and
    the log of the run holds the three retrieval calls only: no request
    reached the Generator. *)
Theorem no_match_sentinel (env : Env) (question : string) (v : list float) :
  retrieves env question v [] ->
  snd (run (generate_answer env question))
    = Ok ("No relevant emails found for your question.", []) /\
  fst (run (generate_answer env question)) = retrieval_log env question v /\
  generator_prompts (fst (run (generate_answer env question))) = [] /\
  (forall url payload,
     ~ In (EvGeneratePost url payload) (fst (run (generate_answer env question)))).
Proof.
  intros H. rewrite (generate_answer_no_match env question v H). simpl.
  repeat split. intros url payload [Hc|[Hc|[Hc|[]]]]; discriminate.
Qed.

Lemma no_match_sentinel_witness :
  retrieves (demo_env [] "unused") "What is my next meeting about?" [] [] /\
  snd (run (generate_answer (demo_env [] "unused") "What is my next meeting about?"))
    = Ok ("No relevant emails found for your question.", []).
Proof.
  split; [repeat split|].
  apply (no_match_sentinel (demo_env [] "unused") "What is my next meeting about?" []).
  repeat split.
Defined.

(** ** The budget *)

(** C2, as the code has it.  The prompt passed to the Generator is built
    from a prefix [kept] of the context blocks with the question whole.  It
    is never longer than the fully assembled prompt; when the assembled
    prompt is within [MAX_CONTEXT_LENGTH] nothing is dropped, so the prompt
    is within the budget; otherwise the blocks that are kept, if any, sum to
    less than [MAX_CONTEXT_LENGTH - len(question) - 100].  The budget is a
    bound on the kept blocks, not on the prompt as a whole. *)
Theorem prompt_budget_on_contexts (env : Env) (question : string)
    (v : list float) (matches : list Match) :
  retrieves env question v matches -> matches <> [] ->
  LLM_PROVIDER env = "ollama" ->
  exists kept : list string,
    generator_prompts (fst (run (generate_answer env question)))
      = [build_prompt question kept] /\
    kept `prefix_of` contexts_of matches /\
    Py.len (build_prompt question kept)
      <= Py.len (build_prompt question (contexts_of matches)) /\
    (Py.len (build_prompt question (contexts_of matches)) <= MAX_CONTEXT_LENGTH ->
       kept = contexts_of matches /\
       Py.len (build_prompt question kept) <= MAX_CONTEXT_LENGTH) /\
    (MAX_CONTEXT_LENGTH < Py.len (build_prompt question (contexts_of matches)) ->
       kept = [] \/
       total_len kept < MAX_CONTEXT_LENGTH - Py.len question - 100).
Proof.
  intros H Hne Hp.
  rewrite (generate_answer_log env question v matches H Hne Hp).
  rewrite generator_prompts_retrieval. simpl pl_prompt.
  set (contexts := contexts_of matches).
  destruct (Z.le_gt_cases (Py.len (build_prompt question contexts)) MAX_CONTEXT_LENGTH)
    as [Hfit|Hbig].
  - exists contexts. rewrite (bounded_prompt_fits _ _ Hfit).
    repeat split; [done | lia | done | lia].
  - destruct (truncate_contexts_take question contexts) as (k & Hk & Heq & Hin & _).
    exists (take k contexts). rewrite (bounded_prompt_exceeds _ _ Hbig), Heq.
    split; [done|]. split; [apply prefix_take|]. split.
    { rewrite !len_build_prompt.
      pose proof (len_join_take (Py.LF +:+ Py.LF) contexts k). lia. }
    split; [lia|]. intros _.
    destruct k as [|k]; [left; apply take_0|].
    right. specialize (Hin (S k)). unfold available_for in Hin. lia.
Qed.

Lemma prompt_budget_on_contexts_witness :
  let matches := [preview_match "m1" 1000; preview_match "m2" 1000;
                  preview_match "m3" 1000] in
  let env := demo_env matches "answer" in
  exists kept : list string,
    generator_prompts (fst (run (generate_answer env "Who wrote about Rome")))
      = [build_prompt "Who wrote about Rome" kept] /\
    kept `prefix_of` contexts_of matches.
Proof.
  intros matches env.
  destruct (prompt_budget_on_contexts env "Who wrote about Rome" [] matches)
    as (kept & Hsent & Hpre & _); [repeat split | discriminate | reflexivity |].
  exists kept. split; assumption.
Defined.

(** The claim as the specification states it fails: a question of 3000
    characters is sent whole, so the prompt that reaches the Generator is
    longer than [MAX_CONTEXT_LENGTH] although every context block was
    dropped. *)
Lemma prompt_budget_counterexample :
  let question := Py.times "a" 3000 in
  let matches := [preview_match "m1" 10] in
  let env := demo_env matches "answer" in
  retrieves env question [] matches /\
  generator_prompts (fst (run (generate_answer env question)))
    = [build_prompt question []] /\
  Py.len (build_prompt question []) = 3114 /\
  ~ (Py.len (build_prompt question []) <= MAX_CONTEXT_LENGTH).
Proof.
  intros question matches env.
  split; [repeat split|]. split; [|split].
  - vm_compute. reflexivity.
  - vm_compute. reflexivity.
  - vm_compute. intros H. apply H. reflexivity.
Qed.

(** The allowance of 100 characters is smaller than the 114 characters of
    the template, and the blank lines between blocks are not counted: a
    prompt a little over the budget can go through the loop with every
    block kept, and is then sent as it was. *)
Remark over_budget_nothing_dropped :
  let question := "Who wrote about Rome" in
  let contexts := contexts_of [preview_match "m1" 1000; preview_match "m2" 1000;
                               preview_match "m3" 750] in
  Py.len (build_prompt question contexts) = 3017 /\
  truncate_contexts question contexts = contexts /\
  bounded_prompt question contexts = build_prompt question contexts.
Proof. vm_compute. repeat split. Qed.

(** C3, as the code has it.  When the assembled prompt exceeds the budget,
    the rebuilt prompt holds the first [k] context blocks, whole and in
    their order, and no block after them: every running total up to [k] is
    strictly below the available budget [MAX_CONTEXT_LENGTH - len(question)
    - 100], and the block at position [k], when there is one, is the first
    whose length would bring the total to that bound or beyond it. *)
Theorem truncation_keeps_prefix (question : string) (contexts : list string) :
  MAX_CONTEXT_LENGTH < Py.len (build_prompt question contexts) ->
  exists k : nat,
    (k <= length contexts)%nat /\
    truncate_contexts question contexts = take k contexts /\
    bounded_prompt question contexts = build_prompt question (take k contexts) /\
    (forall j : nat, (1 <= j <= k)%nat ->
       total_len (take j contexts) < available_for question) /\
    (forall c : string, contexts !! k = Some c ->
       available_for question <= total_len (take k contexts) + Py.len c).
Proof.
  intros Hbig.
  destruct (truncate_contexts_take question contexts) as (k & Hk & Heq & Hin & Hout).
  exists k. rewrite (bounded_prompt_exceeds _ _ Hbig), Heq. by repeat split.
Qed.

Lemma truncation_keeps_prefix_witness :
  let question := "Who wrote about Rome" in
  let contexts := contexts_of [preview_match "m1" 1000; preview_match "m2" 1000;
                               preview_match "m3" 1000] in
  MAX_CONTEXT_LENGTH < Py.len (build_prompt question contexts) /\
  exists k : nat,
    bounded_prompt question contexts = build_prompt question (take k contexts).
Proof.
  intros question contexts.
  assert (Hbig : MAX_CONTEXT_LENGTH < Py.len (build_prompt question contexts))
    by (vm_compute; reflexivity).
  split; [exact Hbig|].
  destruct (truncation_keeps_prefix question contexts Hbig)
    as (k & _ & _ & Hsent & _).
  exists k. exact Hsent.
Defined.

(** The claim as the specification states it fails at the boundary: here
    the third block would bring the total exactly to the available budget,
    without exceeding it, and the loop stops before it all the same. *)
Lemma truncation_stop_counterexample :
  let question := "Who wrote about Rome" in
  let contexts := contexts_of [preview_match "m1" 1000; preview_match "m2" 1000;
                               preview_match "m3" 751] in
  MAX_CONTEXT_LENGTH < Py.len (build_prompt question contexts) /\
  total_len contexts = available_for question /\
  truncate_contexts question contexts = take 2 contexts /\
  spec_included question contexts = contexts /\
  truncate_contexts question contexts <> spec_included question contexts.
Proof.
  intros question contexts.
  assert (Hcode : truncate_contexts question contexts = take 2 contexts)
    by (vm_compute; reflexivity).
  assert (Hspec : spec_included question contexts = contexts)
    by (vm_compute; reflexivity).
  split; [vm_compute; reflexivity|].
  split; [vm_compute; reflexivity|].
  split; [exact Hcode|]. split; [exact Hspec|].
  rewrite Hcode, Hspec. intros Heq.
  apply (f_equal length) in Heq. vm_compute in Heq. discriminate.
Qed.

(** ** The unabridged prompt *)

(** C4. For a non-empty sequence of context blocks whose assembled prompt
    is within the budget, the prompt sent on is the template in full: the
    question section, the blocks joined by a blank line, and the fixed
    instruction.  The same holds of the request that reaches the Generator
    when the blocks are those of a match list. *)
Theorem unabridged_prompt_when_fits (question : string) (contexts : list string) :
  contexts <> [] ->
  Py.len (build_prompt question contexts) <= MAX_CONTEXT_LENGTH ->
  bounded_prompt question contexts
  = "QUESTION:" +:+ Py.LF +:+ question +:+ Py.LF +:+ Py.LF +:+
    "CONTEXT:" +:+ Py.LF +:+ Py.join (Py.LF +:+ Py.LF) contexts +:+ Py.LF +:+ Py.LF +:+
    "Using only the CONTEXT above, answer the QUESTION as accurately and completely as possible."
  /\ forall (env : Env) (v : list float) (matches : list Match),
       contexts = contexts_of matches ->
       retrieves env question v matches ->
       LLM_PROVIDER env = "ollama" ->
       generator_prompts (fst (run (generate_answer env question)))
       = [ "QUESTION:" +:+ Py.LF +:+ question +:+ Py.LF +:+ Py.LF +:+
           "CONTEXT:" +:+ Py.LF +:+ Py.join (Py.LF +:+ Py.LF) contexts +:+ Py.LF +:+ Py.LF +:+
           "Using only the CONTEXT above, answer the QUESTION as accurately and completely as possible." ].
Proof.
  intros Hne Hfit.
  assert (Htemplate : bounded_prompt question contexts
    = "QUESTION:" +:+ Py.LF +:+ question +:+ Py.LF +:+ Py.LF +:+
      "CONTEXT:" +:+ Py.LF +:+ Py.join (Py.LF +:+ Py.LF) contexts +:+ Py.LF +:+ Py.LF +:+
      INSTRUCTION).
  { rewrite (bounded_prompt_fits _ _ Hfit). unfold build_prompt.
    rewrite !str_app_assoc. reflexivity. }
  split; [exact Htemplate|].
  intros env v matches -> Hret Hp.
  assert (Hm : matches <> []) by (intros ->; by apply Hne).
  rewrite (generate_answer_log env question v matches Hret Hm Hp).
  rewrite generator_prompts_retrieval. simpl pl_prompt.
  by rewrite Htemplate.
Qed.

Lemma unabridged_prompt_when_fits_witness :
  let question := "What is my next meeting about?" in
  let matches :=
    [ {| match_id := "m1"; match_score := 0x1p-1%float;
         match_metadata :=
           {[ "subject" := "Project meeting tomorrow"; "from" := "a@x.com";
              "date" := "Mon";
              "body_preview" := "Our next meeting is tomorrow at 2 PM in room B." ]} |} ] in
  generator_prompts (fst (run (generate_answer (demo_env matches "ok") question)))
  = [ "QUESTION:" +:+ Py.LF +:+ question +:+ Py.LF +:+ Py.LF +:+
      "CONTEXT:" +:+ Py.LF +:+ Py.join (Py.LF +:+ Py.LF) (contexts_of matches)
      +:+ Py.LF +:+ Py.LF +:+
      "Using only the CONTEXT above, answer the QUESTION as accurately and completely as possible." ].
Proof.
  intros question matches.
  refine (proj2 (unabridged_prompt_when_fits question (contexts_of matches) _ _)
            (demo_env matches "ok") [] matches eq_refl _ eq_refl).
  - discriminate.
  - vm_compute. discriminate.
  - repeat split.
Defined.

(** ** Context blocks *)

Lemma dict_get_spec_field (metadata : gmap string string) (key : string) :
  dict_get metadata key "N/A" = spec_field metadata key.
Proof. unfold dict_get, spec_field. by destruct (metadata !! key). Qed.

Lemma get_or_spec_content (metadata : gmap string string) :
  Py.get_or (metadata !! "body_preview") (dict_get metadata "snippet" EmptyString)
  = spec_content metadata.
Proof.
  unfold spec_content, dict_get.
  destruct (metadata !! "body_preview") as [[|c s]|]; simpl;
    by destruct (metadata !! "snippet").
Qed.

Lemma context_block_spec (metadata : gmap string string) :
  context_block metadata = spec_context_block metadata.
Proof.
  unfold context_block, spec_context_block. cbv zeta.
  rewrite !dict_get_spec_field, get_or_spec_content.
  unfold Py.join. by rewrite !str_app_assoc.
Qed.

(** C5. The context block of every match is the four lines [Subject:],
    [From:], [Date:] and [Content:], in that order, each closed by a line
    feed; the content is the body preview when that key is present with a
    non-empty value, else the snippet, else the empty string; a subject,
    sender or date whose key is missing is written [N/A], so that metadata
    without [from] gives the line [From: N/A]. *)
Theorem context_block_layout (matches : list Match) (metadata : gmap string string) :
  fst (collect matches)
    = map (fun m => spec_context_block (match_metadata m)) matches /\
  context_block metadata
    = "Subject: " +:+ spec_field metadata "subject" +:+ Py.LF +:+
      "From: " +:+ spec_field metadata "from" +:+ Py.LF +:+
      "Date: " +:+ spec_field metadata "date" +:+ Py.LF +:+
      "Content: " +:+ spec_content metadata +:+ Py.LF /\
  (metadata !! "from" = None ->
   context_block metadata
    = "Subject: " +:+ spec_field metadata "subject" +:+ Py.LF +:+
      "From: N/A" +:+ Py.LF +:+
      "Date: " +:+ spec_field metadata "date" +:+ Py.LF +:+
      "Content: " +:+ spec_content metadata +:+ Py.LF) /\
  (metadata !! "subject" = None -> spec_field metadata "subject" = "N/A") /\
  (metadata !! "date" = None -> spec_field metadata "date" = "N/A").
Proof.
  assert (Hlayout : context_block metadata
    = "Subject: " +:+ spec_field metadata "subject" +:+ Py.LF +:+
      "From: " +:+ spec_field metadata "from" +:+ Py.LF +:+
      "Date: " +:+ spec_field metadata "date" +:+ Py.LF +:+
      "Content: " +:+ spec_content metadata +:+ Py.LF).
  { rewrite context_block_spec. unfold spec_context_block, Py.join.
    by rewrite !str_app_assoc. }
  split.
  { rewrite collect_maps. simpl. unfold contexts_of.
    apply map_ext. intros m. apply context_block_spec. }
  split; [exact Hlayout|]. split.
  { intros Hfrom. rewrite Hlayout. unfold spec_field at 2. rewrite Hfrom.
    change "From: N/A" with ("From: " +:+ "N/A"). by rewrite !str_app_assoc. }
  split; intros Hnone; unfold spec_field; by rewrite Hnone.
Qed.

Lemma context_block_layout_witness :
  let metadata : gmap string string :=
    {[ "subject" := "Lunch"; "date" := "Mon"; "snippet" := "Noon?" ]} in
  metadata !! "from" = None /\
  context_block metadata
  = "Subject: Lunch" +:+ Py.LF +:+ "From: N/A" +:+ Py.LF +:+
    "Date: Mon" +:+ Py.LF +:+ "Content: Noon?" +:+ Py.LF.
Proof.
  intros metadata.
  assert (Hfrom : metadata !! "from" = None) by (vm_compute; reflexivity).
  split; [exact Hfrom|].
  rewrite (proj1 (proj2 (proj2 (context_block_layout [] metadata))) Hfrom).
  vm_compute. reflexivity.
Defined.

(** ** The provider factory *)

(** C6, as the code has it.  A name outside the table makes
    [get_llm_provider] raise a [ValueError], the class that [get_llm]
    raises as well: the source has no error class of its own for an unknown
    provider.  The message quotes the name and lists the registered names.
    The one registered name, [ollama], is dispatched to [OllamaProvider],
    which is built from the configuration (with its defaults for what the
    configuration leaves out). *)
Theorem get_llm_provider_factory (provider_name : string)
    (config : gmap string string) :
  (~ In provider_name provider_names ->
   get_llm_provider provider_name config
     = Raise (ValueError ("Unknown provider: " +:+ provider_name +:+
                          ". Available: ['ollama']")) /\
   forall known, In known provider_names ->
     exists before after,
       ". Available: ['ollama']" = before +:+ known +:+ after) /\
  (In provider_name provider_names ->
   get_llm_provider provider_name config = OllamaProvider_init config /\
   (dom config ⊆ ({[ "base_url"; "model" ]} : gset string) ->
    get_llm_provider provider_name config
      = Ok (Ollama {| base_url := dict_get config "base_url" "http://localhost:11434";
                      model := dict_get config "model" "llama3.2" |}))).
Proof.
  split.
  - intros Hnot. split.
    + unfold get_llm_provider, providers, table_lookup.
      destruct (String.eqb_spec "ollama" provider_name) as [<-|Hne]; [|reflexivity].
      exfalso. apply Hnot. by left.
    + intros known [<-|[]]. by exists ". Available: ['", "']".
  - intros [<-|[]]. split; [reflexivity|].
    intros Hdom. unfold get_llm_provider. simpl. unfold OllamaProvider_init.
    by rewrite bool_decide_eq_true_2.
Qed.

Lemma get_llm_provider_factory_witness :
  (~ In "replicate" provider_names /\
   get_llm_provider "replicate" ∅
     = Raise (ValueError "Unknown provider: replicate. Available: ['ollama']")) /\
  (In "ollama" provider_names /\
   get_llm_provider "ollama" (<["model" := "llama3.1"]> ∅)
     = Ok (Ollama {| base_url := "http://localhost:11434"; model := "llama3.1" |})).
Proof.
  assert (Hnot : ~ In "replicate" provider_names)
    by (intros [H|[]]; discriminate H).
  assert (Hin : In "ollama" provider_names) by (by left).
  split.
  - split; [exact Hnot|].
    exact (proj1 (proj1 (get_llm_provider_factory "replicate" ∅) Hnot)).
  - split; [exact Hin|].
    rewrite (proj2 (proj2 (get_llm_provider_factory "ollama"
                             (<["model" := "llama3.1"]> ∅)) Hin)).
    + vm_compute. reflexivity.
    + apply (bool_decide_unpack _). vm_compute. exact I.
Defined.

(** The claim as the specification states it fails: the error of the
    factory is not of a kind of its own.  It is a [ValueError], as is the
    error [get_llm] raises for a provider setting it does not know, so that
    a handler for the one catches the other. *)
Lemma unknown_provider_kind_counterexample :
  let env := {| LLM_PROVIDER := "replicate"; OLLAMA_BASE_URL := "http://localhost:11434";
                OLLAMA_MODEL := "nomic-embed-text"; LLAMA_MODEL := "llama3.2";
                pinecone_connect := Ok tt;
                index_query := fun _ _ => Ok [];
                post_embeddings := fun _ _ _ => Reply (Some []);
                post_generate := fun _ _ => Reply (Some "x") |} in
  exists e1 e2,
    get_llm_provider "replicate" ∅ = Raise e1 /\
    snd (get_llm env []) = Raise e2 /\
    e1 = ValueError "Unknown provider: replicate. Available: ['ollama']" /\
    e2 = ValueError "Unknown LLM provider: replicate. Available: 'ollama'" /\
    same_class e1 e2 = true.
Proof.
  intros env. eexists. eexists.
  split; [vm_compute; reflexivity|]. split; [vm_compute; reflexivity|].
  repeat split.
Qed.

(** ** Sources *)

Lemma source_of_projection (m : Match) : source_of m = projection m.
Proof.
  unfold source_of, projection. cbv zeta.
  rewrite !dict_get_spec_field. unfold dict_get.
  by destruct (match_metadata m !! "snippet").
Qed.

Lemma contexts_of_rendering (matches : list Match) :
  contexts_of matches = map rendering matches.
Proof. unfold contexts_of. apply map_ext. intros m. apply context_block_spec. Qed.

(** C7. With a non-empty match list the orchestrator walks the matches in
    the order of the index.  The i-th source it returns is the projection
    of the i-th match: its id, its score, and its subject, sender, date and
    snippet.  The prompt holds the renderings of the first [k] matches, in
    the order of the matches, all of them when the assembled prompt is
    within the budget.  The loop builds both lists position by position. *)
Theorem sources_follow_match_order (env : Env) (question : string)
    (v : list float) (matches : list Match) (response : string) :
  retrieves env question v matches -> matches <> [] ->
  generator_replies env (bounded_prompt question (contexts_of matches)) response ->
  collect matches = (map rendering matches, map projection matches) /\
  exists (sources : list Source) (k : nat),
    snd (run (generate_answer env question)) = Ok (Py.strip response, sources) /\
    length sources = length matches /\
    (forall (i : nat) (m : Match), matches !! i = Some m ->
       sources !! i
       = Some {| src_id := match_id m;
                 src_score := match_score m;
                 src_subject := spec_field (match_metadata m) "subject";
                 src_from := spec_field (match_metadata m) "from";
                 src_date := spec_field (match_metadata m) "date";
                 src_snippet := match match_metadata m !! "snippet" with
                                | Some snippet => snippet
                                | None => EmptyString
                                end |}) /\
    (k <= length matches)%nat /\
    generator_prompts (fst (run (generate_answer env question)))
      = [build_prompt question (map rendering (take k matches))] /\
    (Py.len (build_prompt question (map rendering matches)) <= MAX_CONTEXT_LENGTH ->
     k = length matches).
Proof.
  intros Hret Hne Hgen.
  assert (Hsrc : map source_of matches = map projection matches)
    by (apply map_ext; intros m; apply source_of_projection).
  split; [by rewrite collect_maps, contexts_of_rendering, Hsrc|].
  rewrite (generate_answer_matches env question v matches response Hret Hne Hgen).
  cbn [fst snd]. rewrite generator_prompts_retrieval. simpl pl_prompt.
  rewrite Hsrc, contexts_of_rendering.
  assert (Hk : exists k : nat,
             (k <= length matches)%nat /\
             bounded_prompt question (map rendering matches)
               = build_prompt question (map rendering (take k matches)) /\
             (Py.len (build_prompt question (map rendering matches))
                <= MAX_CONTEXT_LENGTH -> k = length matches)).
  { destruct (Z.le_gt_cases (Py.len (build_prompt question (map rendering matches)))
                MAX_CONTEXT_LENGTH) as [Hfit|Hbig].
    - exists (length matches).
      by rewrite firstn_all, (bounded_prompt_fits _ _ Hfit).
    - destruct (truncate_contexts_take question (map rendering matches))
        as (k & Hk & Heq & _).
      rewrite length_map in Hk.
      exists k. split; [done|].
      rewrite (bounded_prompt_exceeds _ _ Hbig), Heq.
      split; [by rewrite <- fmap_take | lia]. }
  destruct Hk as (k & Hk & Hprompt & Hall).
  exists (map projection matches), k. rewrite Hprompt.
  split; [done|]. split; [by rewrite length_map|]. split; [|done].
  intros i m Hi. by rewrite list_lookup_fmap, Hi.
Qed.

Lemma sources_follow_match_order_witness :
  let m1 := {| match_id := "m1"; match_score := 0x1.8p-1%float;
               match_metadata := {[ "subject" := "Lunch"; "snippet" := "Noon?" ]} |} in
  let m2 := {| match_id := "m2"; match_score := 0x1p-1%float;
               match_metadata := {[ "from" := "a@x.com" ]} |} in
  snd (run (generate_answer (demo_env [m1; m2] " Rome. ") "Who wrote about Rome"))
  = Ok ("Rome.",
        [ {| src_id := "m1"; src_score := 0x1.8p-1%float; src_subject := "Lunch";
             src_from := "N/A"; src_date := "N/A"; src_snippet := "Noon?" |};
          {| src_id := "m2"; src_score := 0x1p-1%float; src_subject := "N/A";
             src_from := "a@x.com"; src_date := "N/A"; src_snippet := EmptyString |} ]).
Proof.
  intros m1 m2.
  destruct (sources_follow_match_order (demo_env [m1; m2] " Rome. ")
              "Who wrote about Rome" [] [m1; m2] " Rome. ")
    as (_ & sources & k & Hres & Hlen & Hith & _);
    [repeat split | discriminate | repeat split |].
  rewrite Hres. f_equal. f_equal.
  destruct sources as [|s1 [|s2 [|s3 rest]]]; try discriminate Hlen.
  pose proof (Hith 0%nat m1 eq_refl) as H1. pose proof (Hith 1%nat m2 eq_refl) as H2.
  simpl in H1, H2. injection H1 as ->. injection H2 as ->.
  vm_compute. reflexivity.
Defined.

(** C9. Truncation concerns the prompt only: whatever the budget does to
    the context blocks, the source list returned with the answer has one
    entry per match, the projection of each match. *)
Theorem sources_unaffected_by_truncation (env : Env) (question : string)
    (v : list float) (matches : list Match) (response : string) :
  retrieves env question v matches -> matches <> [] ->
  generator_replies env (bounded_prompt question (contexts_of matches)) response ->
  exists sources : list Source,
    snd (run (generate_answer env question)) = Ok (Py.strip response, sources) /\
    length sources = length matches /\
    sources = map source_of matches /\
    generator_prompts (fst (run (generate_answer env question)))
      = [ if MAX_CONTEXT_LENGTH <? Py.len (build_prompt question (contexts_of matches))
          then build_prompt question
                 (truncate_contexts question (contexts_of matches))
          else build_prompt question (contexts_of matches) ].
Proof.
  intros Hret Hne Hgen.
  rewrite (generate_answer_matches env question v matches response Hret Hne Hgen).
  cbn [fst snd]. rewrite generator_prompts_retrieval. simpl pl_prompt.
  exists (map source_of matches). by rewrite length_map.
Qed.

(** Three matches, of which the budget keeps two in the prompt, and three
    sources. *)
Lemma sources_unaffected_by_truncation_witness :
  let matches := [preview_match "m1" 1000; preview_match "m2" 1000;
                  preview_match "m3" 1000] in
  let env := demo_env matches "answer" in
  length (truncate_contexts "Who wrote about Rome" (contexts_of matches)) = 2%nat /\
  exists sources : list Source,
    snd (run (generate_answer env "Who wrote about Rome")) = Ok ("answer", sources) /\
    length sources = 3%nat.
Proof.
  intros matches env. split; [vm_compute; reflexivity|].
  destruct (sources_unaffected_by_truncation env "Who wrote about Rome" []
              matches "answer")
    as (sources & Hres & Hlen & _);
    [repeat split | discriminate | repeat split |].
  exists sources. split; [exact Hres | exact Hlen].
Defined.

(** A single match whose block alone is over the budget: the prompt goes
    out with no context at all, and the source is still returned. *)
Remark all_contexts_dropped_source_kept :
  let matches := [preview_match "m1" 3000] in
  let env := demo_env matches "answer" in
  generator_prompts (fst (run (generate_answer env "Who wrote about Rome")))
    = [build_prompt "Who wrote about Rome" []] /\
  snd (run (generate_answer env "Who wrote about Rome"))
    = Ok ("answer", [source_of (preview_match "m1" 3000)]).
Proof. vm_compute. split; reflexivity. Qed.

(** C10. The defaults of a source differ by field: a match without
    [subject], [from] or [date] gives ['N/A'] there, a match without
    [snippet] gives the empty string, not ['N/A']; a key that is present
    gives its value.  Every entry of the collected source list is such a
    projection of the match at its position. *)
Theorem source_defaults (m : Match) :
  (match_metadata m !! "subject" = None -> src_subject (source_of m) = "N/A") /\
  (match_metadata m !! "from" = None -> src_from (source_of m) = "N/A") /\
  (match_metadata m !! "date" = None -> src_date (source_of m) = "N/A") /\
  (match_metadata m !! "snippet" = None ->
     src_snippet (source_of m) = EmptyString /\ src_snippet (source_of m) <> "N/A") /\
  (forall value, match_metadata m !! "subject" = Some value ->
     src_subject (source_of m) = value) /\
  (forall value, match_metadata m !! "from" = Some value ->
     src_from (source_of m) = value) /\
  (forall value, match_metadata m !! "date" = Some value ->
     src_date (source_of m) = value) /\
  (forall value, match_metadata m !! "snippet" = Some value ->
     src_snippet (source_of m) = value) /\
  (forall (matches : list Match) (i : nat),
     matches !! i = Some m -> snd (collect matches) !! i = Some (source_of m)).
Proof.
  unfold source_of, dict_get. simpl.
  repeat match goal with |- _ /\ _ => split end.
  1-3: by intros ->.
  - intros ->. simpl. split; [reflexivity | discriminate].
  - by intros value ->.
  - by intros value ->.
  - by intros value ->.
  - by intros value ->.
  - intros matches i Hi. rewrite collect_maps. simpl.
    by rewrite list_lookup_fmap, Hi.
Qed.

Lemma source_defaults_witness :
  let m := {| match_id := "m1"; match_score := 0x1p-1%float;
              match_metadata := {[ "body_preview" := "Hello" ]} |} in
  match_metadata m !! "subject" = None /\
  match_metadata m !! "snippet" = None /\
  src_subject (source_of m) = "N/A" /\
  src_snippet (source_of m) = EmptyString.
Proof.
  intros m.
  assert (Hsub : match_metadata m !! "subject" = None) by (vm_compute; reflexivity).
  assert (Hsnip : match_metadata m !! "snippet" = None) by (vm_compute; reflexivity).
  split; [exact Hsub|]. split; [exact Hsnip|]. split.
  - exact (proj1 (source_defaults m) Hsub).
  - exact (proj1 (proj1 (proj2 (proj2 (proj2 (source_defaults m)))) Hsnip)).
Defined.

(** ** Body extraction *)

Lemma extract_node (decode_text : string -> result string) m b ps :
  extract_email_body decode_text (mkPayload m b (Some ps))
  = extract_parts decode_text ps.
Proof. induction ps as [|part rest IH]; [reflexivity|]. simpl. by rewrite <- IH. Qed.

Lemma first_plain_leaf_node m b ps :
  first_plain_leaf (mkPayload m b (Some ps)) = first_plain_leaf_parts ps.
Proof. induction ps as [|part rest IH]; [reflexivity|]. simpl. by rewrite <- IH. Qed.

Lemma plain_leaves_node m b ps :
  plain_leaves (mkPayload m b (Some ps)) = plain_leaves_parts ps.
Proof. induction ps as [|part rest IH]; [reflexivity|]. simpl. by rewrite <- IH. Qed.

Lemma parts_have_body_node m b ps :
  parts_have_body (mkPayload m b (Some ps)) = parts_have_body_parts ps.
Proof. induction ps as [|part rest IH]; [reflexivity|]. simpl. by rewrite <- IH. Qed.

Lemma first_met_node m b ps :
  first_met (mkPayload m b (Some ps)) = first_met_parts ps.
Proof. induction ps as [|part rest IH]; [reflexivity|]. simpl. by rewrite <- IH. Qed.

(** The test of the loop on one part, against the part looked at by
    itself. *)
Lemma part_met_cases (part : Payload) :
  match part_met part with
  | Some Bodyless => exists e, plain_data_of_part part = Raise e
  | Some (Direct d) =>
      plain_data_of_part part = Ok (Some d) /\ plain_data_of_single part = Some d
  | Some _ => False
  | None =>
      plain_data_of_part part = Ok None /\ plain_data_of_single part = None
  end.
Proof.
  unfold part_met, plain_data_of_part, plain_data_of_single.
  destruct (mimeType_of part) as [mime|] eqn:Hmime.
  - destruct (String.eqb_spec mime "text/plain") as [->|Hne].
    + rewrite !bool_decide_eq_true_2 by done.
      destruct (body_of part) as [b|]; [|by eexists].
      by destruct (data b).
    + rewrite !bool_decide_eq_false_2 by congruence. done.
  - rewrite !bool_decide_eq_false_2 by done. done.
Qed.

Section ExtractProperties.

Variable decode_text : string -> result string.

Lemma extract_parts_follows (ps : list Payload) :
  Forall (fun p => follows decode_text (first_met p) (first_plain_leaf p)
                     (extract_email_body decode_text p)) ps ->
  follows decode_text (first_met_parts ps) (first_plain_leaf_parts ps)
    (extract_parts decode_text ps).
Proof.
  induction 1 as [|part rest Hpart _ IH]; [done|].
  simpl first_met_parts. simpl first_plain_leaf_parts. simpl extract_parts.
  pose proof (part_met_cases part) as Hcases.
  destruct (part_met part) as [[|d|d|]|].
  - done.
  - destruct Hcases as [-> ->]. done.
  - done.
  - done.
  - destruct Hcases as [-> ->].
    destruct (is_multipart part); [|exact IH].
    destruct (first_met part) as [|d|d|]; simpl in Hpart.
    + destruct Hpart as [-> ->]. exact IH.
    + destruct Hpart as [-> ->]. simpl. split; [done|]. intros Hne.
      by destruct (decoded_body decode_text d) as [[|c text]|e].
    + destruct Hpart as [-> Hpart]. simpl. split; [done|]. intros Hne.
      rewrite (Hpart Hne).
      by destruct (decoded_body decode_text d) as [[|c text]|e].
    + done.
Qed.

Lemma extract_follows (payload : Payload) :
  follows decode_text (first_met payload) (first_plain_leaf payload)
    (extract_email_body decode_text payload).
Proof.
  induction payload as [m b|m b ps IH] using Payload_tree_ind.
  - simpl. by destruct (plain_data_of_single (mkPayload m b None)).
  - rewrite extract_node, first_plain_leaf_node, first_met_node.
    by apply extract_parts_follows.
Qed.

End ExtractProperties.

(** C8, as the code has it.  The search goes through the parts in order
    and descends into the multipart ones.  When it meets no text/plain
    leaf, the result is the empty string.  When the leaf it meets first is
    the message itself or is listed directly under its parts, the result
    is the cleaned decoded text of that leaf.  When the leaf it meets first
    lies inside a multipart part, the result is its cleaned decoded text
    provided that text is not empty: a multipart part whose own search
    gives the empty string does not end the loop, and the search goes on
    with the parts after it.  In each case the leaf is the first
    text/plain leaf in the sense of the specification. *)
Theorem extract_first_plain_leaf (decode_text : string -> result string)
    (payload : Payload) :
  (first_met payload = NoLeaf ->
   first_plain_leaf payload = None /\
   extract_email_body decode_text payload = Ok EmptyString) /\
  (forall d, first_met payload = Direct d ->
   first_plain_leaf payload = Some d /\
   extract_email_body decode_text payload = decoded_body decode_text d) /\
  (forall d, first_met payload = Nested d ->
   first_plain_leaf payload = Some d /\
   (decoded_body decode_text d <> Ok EmptyString ->
    extract_email_body decode_text payload = decoded_body decode_text d)) /\
  (forall m b part rest,
     payload = mkPayload m b (Some (part :: rest)) ->
     plain_data_of_part part = Ok None ->
     is_multipart part = true ->
     extract_email_body decode_text part = Ok EmptyString ->
     extract_email_body decode_text payload
       = extract_email_body decode_text (mkPayload m b (Some rest))).
Proof.
  pose proof (extract_follows decode_text payload) as H.
  split; [intros Hmet; by rewrite Hmet in H|].
  split; [intros d Hmet; by rewrite Hmet in H|].
  split; [intros d Hmet; by rewrite Hmet in H|].
  intros m b part rest -> Hdirect Hmulti Hempty.
  rewrite !extract_node. simpl. by rewrite Hdirect, Hmulti, Hempty.
Qed.

(** The text alternative inside the multipart part is met first and is
    not empty; then the first leaf is returned although a blank leaf and a
    part without body come after it. *)
Lemma extract_first_plain_leaf_witness :
  (first_met message_with_footer = Nested "SGVsbG8gPGI-d29ybGQ8L2I-ICAKIHRoZXJl" /\
   extract_email_body urlsafe_b64decode_text message_with_footer
   = Ok "Hello world there") /\
  (first_met message_with_late_blank = Direct "Rm9vdGVy" /\
   extract_email_body urlsafe_b64decode_text message_with_late_blank
   = Ok "Footer").
Proof.
  split.
  - assert (Hmet : first_met message_with_footer
                   = Nested "SGVsbG8gPGI-d29ybGQ8L2I-ICAKIHRoZXJl")
      by (vm_compute; reflexivity).
    split; [exact Hmet|].
    destruct (proj1 (proj2 (proj2 (extract_first_plain_leaf urlsafe_b64decode_text
                                     message_with_footer))) _ Hmet) as [_ Hres].
    rewrite Hres; [vm_compute; reflexivity | vm_compute; discriminate].
  - assert (Hmet : first_met message_with_late_blank = Direct "Rm9vdGVy")
      by (vm_compute; reflexivity).
    split; [exact Hmet|].
    destruct (proj1 (proj2 (extract_first_plain_leaf urlsafe_b64decode_text
                              message_with_late_blank)) _ Hmet) as [_ Hres].
    rewrite Hres. vm_compute. reflexivity.
Defined.

(** The claim as the specification states it fails: the first text/plain
    leaf of the walk is the blank alternative, whose cleaned text is empty;
    the search does not stop there and returns the footer. *)
Lemma extract_first_match_counterexample :
  first_plain_leaf message_with_blank_text = Some "DQo=" /\
  decoded_body urlsafe_b64decode_text "DQo=" = Ok EmptyString /\
  spec_extract urlsafe_b64decode_text message_with_blank_text = Ok EmptyString /\
  extract_email_body urlsafe_b64decode_text message_with_blank_text = Ok "Footer" /\
  extract_email_body urlsafe_b64decode_text message_with_blank_text
    <> spec_extract urlsafe_b64decode_text message_with_blank_text.
Proof. vm_compute. repeat split. discriminate. Qed.

(** A text/plain part listed under [parts] without a [body] key raises,
    where the same part as a whole message is read as having no text. *)
Remark part_without_body_raises :
  extract_email_body urlsafe_b64decode_text
    (mkPayload (Some "multipart/mixed") None
       (Some [mkPayload (Some "text/plain") None None]))
    = Raise (KeyError "body") /\
  extract_email_body urlsafe_b64decode_text
    (mkPayload (Some "text/plain") None None) = Ok EmptyString.
Proof. vm_compute. split; reflexivity. Qed.

(** A text alternative that holds a lone no-break space (the bytes C2 A0)
    cleans to the empty string as well, and is passed over in the same
    way. *)
Remark no_break_space_alternative :
  urlsafe_b64decode_text "wqA=" = Ok (String "160" EmptyString) /\
  clean_text (String "160" EmptyString) = EmptyString /\
  extract_email_body urlsafe_b64decode_text
    (container "multipart/mixed"
       [ container "multipart/alternative" [ leaf "text/plain" "wqA=" ];
         leaf "text/plain" "Rm9vdGVy" ])
  = Ok "Footer".
Proof. vm_compute. repeat split. Qed.

(** * Further properties *)

(** ** Failures on the way to an answer *)

(** When Pinecone cannot be reached, [generate_answer] raises what the
    client raised, and nothing else was called: the question was not
    embedded, the index not queried, the Generator not asked. *)
Theorem pinecone_failure_stops_query (env : Env) (question : string) (e : exn) :
  pinecone_connect env = Raise e ->
  run (generate_answer env question) = ([EvPineconeInit], Raise e).
Proof.
  intros H. unfold run, generate_answer, init_pinecone, mbind, M_bind, emit, lift.
  simpl. by rewrite H.
Qed.

Lemma pinecone_failure_stops_query_witness :
  let env := {| LLM_PROVIDER := "ollama"; OLLAMA_BASE_URL := "http://localhost:11434";
                OLLAMA_MODEL := "nomic-embed-text"; LLAMA_MODEL := "llama3.2";
                pinecone_connect := Raise (ExternalError "unauthorized");
                index_query := fun _ _ => Ok [];
                post_embeddings := fun _ _ _ => Reply (Some []);
                post_generate := fun _ _ => Reply (Some "x") |} in
  run (generate_answer env "Any news?")
  = ([EvPineconeInit], Raise (ExternalError "unauthorized")).
Proof.
  intros env. apply (pinecone_failure_stops_query env "Any news?"). reflexivity.
Defined.

(** When the embedder fails on the question, [generate_answer] raises an
    [Exception] whose message wraps the failure, after the one call to the
    embedder: the index is not queried.  A transport failure and a reply
    without the [embedding] field give the two messages of
    [get_embeddings]. *)
Theorem embedding_failure_stops_query (env : Env) (question : string) :
  pinecone_connect env = Ok tt ->
  (forall msg,
     post_embeddings env (embeddings_url env) (OLLAMA_MODEL env) question
       = RequestException msg ->
     run (generate_answer env question)
     = ([EvPineconeInit;
         EvEmbeddingsPost (embeddings_url env) (OLLAMA_MODEL env) question],
        Raise (Exception ("Ollama embedding API error: " +:+ msg)))) /\
  (post_embeddings env (embeddings_url env) (OLLAMA_MODEL env) question
     = Reply None ->
   run (generate_answer env question)
   = ([EvPineconeInit;
       EvEmbeddingsPost (embeddings_url env) (OLLAMA_MODEL env) question],
      Raise (Exception "Unexpected response format from Ollama: 'embedding'"))).
Proof.
  intros Hpc. unfold embeddings_url.
  split; [intros msg Hpost | intros Hpost];
    unfold run, generate_answer, init_pinecone, get_embeddings, mbind, M_bind,
      emit, lift; simpl; rewrite Hpc; simpl; by rewrite Hpost.
Qed.

Lemma embedding_failure_stops_query_witness :
  let env := {| LLM_PROVIDER := "ollama"; OLLAMA_BASE_URL := "http://localhost:11434";
                OLLAMA_MODEL := "nomic-embed-text"; LLAMA_MODEL := "llama3.2";
                pinecone_connect := Ok tt;
                index_query := fun _ _ => Ok [];
                post_embeddings := fun _ _ _ => RequestException "timed out";
                post_generate := fun _ _ => Reply (Some "x") |} in
  snd (run (generate_answer env "Any news?"))
  = Raise (Exception "Ollama embedding API error: timed out").
Proof.
  intros env.
  rewrite (proj1 (embedding_failure_stops_query env "Any news?" eq_refl)
             "timed out" eq_refl).
  reflexivity.
Defined.

(** When the matches are there and the Generator fails, the answer and
    the sources are both lost: a transport failure is raised as an
    [Exception] that wraps it, a reply without the [response] field as the
    bare [KeyError].  The request had been sent, once. *)
Theorem generator_failure_loses_sources (env : Env) (question : string)
    (v : list float) (matches : list Match) :
  retrieves env question v matches -> matches <> [] ->
  LLM_PROVIDER env = "ollama" ->
  length (generator_prompts (fst (run (generate_answer env question)))) = 1%nat /\
  (forall msg,
     post_generate env (generate_url env)
       (generate_request env (bounded_prompt question (contexts_of matches)))
       = RequestException msg ->
     snd (run (generate_answer env question))
     = Raise (Exception ("Ollama API error: " +:+ msg))) /\
  (post_generate env (generate_url env)
     (generate_request env (bounded_prompt question (contexts_of matches)))
     = Reply None ->
   snd (run (generate_answer env question)) = Raise (KeyError "response")).
Proof.
  intros Hret Hne Hp. split.
  { by rewrite (generate_answer_log env question v matches Hret Hne Hp),
      generator_prompts_retrieval. }
  assert (Hrun : forall reply,
    post_generate env (generate_url env)
      (generate_request env (bounded_prompt question (contexts_of matches))) = reply ->
    snd (run (generate_answer env question))
    = match reply with
      | Reply (Some response) => Ok (Py.strip response, map source_of matches)
      | Reply None => Raise (KeyError "response")
      | RequestException msg => Raise (Exception ("Ollama API error: " +:+ msg))
      end).
  { intros reply Hreply. unfold generate_answer.
    rewrite (retrieval_run env question v matches _ _ Hret).
    destruct matches as [|m rest]; [done|].
    rewrite collect_maps.
    unfold generate_llm_answer, mbind, M_bind.
    rewrite (get_llm_ollama env _ Hp). simpl.
    unfold Ollama_generate, mbind, M_bind, emit. simpl.
    fold (generate_url env).
    change (mkGeneratePayload (LLAMA_MODEL env) ?p false 512 _ 1)
      with (generate_request env p).
    change (context_block (match_metadata m) :: contexts_of rest)
      with (contexts_of (m :: rest)).
    rewrite Hreply. by destruct reply as [[r|]|msg]. }
  split; [intros msg Hpost | intros Hpost]; by rewrite (Hrun _ Hpost).
Qed.

Lemma generator_failure_loses_sources_witness :
  let matches := [preview_match "m1" 10] in
  let env := {| LLM_PROVIDER := "ollama"; OLLAMA_BASE_URL := "http://localhost:11434";
                OLLAMA_MODEL := "nomic-embed-text"; LLAMA_MODEL := "llama3.2";
                pinecone_connect := Ok tt;
                index_query := fun _ _ => Ok matches;
                post_embeddings := fun _ _ _ => Reply (Some []);
                post_generate := fun _ _ => RequestException "connection refused" |} in
  snd (run (generate_answer env "Any news?"))
  = Raise (Exception "Ollama API error: connection refused").
Proof.
  intros matches env.
  destruct (generator_failure_loses_sources env "Any news?" [] matches)
    as (_ & Hfail & _); [repeat split | discriminate | reflexivity |].
  rewrite (Hfail "connection refused" eq_refl). reflexivity.
Defined.

(** A provider setting other than [ollama] is noticed late: with matches,
    the query fails with the [ValueError] of [get_llm] after the whole
    retrieval and before any request to the Generator. *)
Theorem unknown_provider_fails_after_retrieval (env : Env) (question : string)
    (v : list float) (matches : list Match) :
  retrieves env question v matches -> matches <> [] ->
  LLM_PROVIDER env <> "ollama" ->
  run (generate_answer env question)
  = (retrieval_log env question v,
     Raise (ValueError ("Unknown LLM provider: " +:+ LLM_PROVIDER env +:+
                        ". Available: 'ollama'"))).
Proof.
  intros Hret Hne Hp. unfold generate_answer.
  rewrite (retrieval_run env question v matches _ _ Hret).
  destruct matches as [|m rest]; [done|].
  rewrite collect_maps.
  unfold generate_llm_answer, mbind, M_bind, get_llm.
  destruct (String.eqb_spec (LLM_PROVIDER env) "ollama") as [Heq|_]; [done|].
  reflexivity.
Qed.

Lemma unknown_provider_fails_after_retrieval_witness :
  let matches := [preview_match "m1" 10] in
  let env := {| LLM_PROVIDER := "replicate"; OLLAMA_BASE_URL := "http://localhost:11434";
                OLLAMA_MODEL := "nomic-embed-text"; LLAMA_MODEL := "llama3.2";
                pinecone_connect := Ok tt;
                index_query := fun _ _ => Ok matches;
                post_embeddings := fun _ _ _ => Reply (Some []);
                post_generate := fun _ _ => Reply (Some "x") |} in
  snd (run (generate_answer env "Any news?"))
  = Raise (ValueError "Unknown LLM provider: replicate. Available: 'ollama'").
Proof.
  intros matches env.
  rewrite (unknown_provider_fails_after_retrieval env "Any news?" [] matches);
    [reflexivity | repeat split | discriminate | discriminate].
Defined.

(** ** Stripping *)

Lemma lstrip_head (s : string) (c : ascii) :
  str_head (Py.lstrip s) = Some c -> Py.is_space c = false.
Proof.
  induction s as [|a s IH]; simpl; [done|].
  destruct (Py.is_space a) eqn:Ha; [exact IH|]. simpl. by intros [= <-].
Qed.

Lemma rstrip_last (s : string) (c : ascii) :
  str_last (Py.rstrip s) = Some c -> Py.is_space c = false.
Proof.
  induction s as [|a s IH]; simpl; [done|].
  destruct (Py.rstrip s) as [|b r] eqn:Hr.
  - destruct (Py.is_space a) eqn:Ha; simpl; [done|]. by intros [= <-].
  - exact IH.
Qed.

Lemma rstrip_head (s : string) (c : ascii) :
  str_head s = Some c -> Py.is_space c = false -> str_head (Py.rstrip s) = Some c.
Proof.
  destruct s as [|a s]; simpl; [done|]. intros [= ->] Hc.
  destruct (Py.rstrip s); [by rewrite Hc|done].
Qed.

Lemma strip_trimmed (s : string) : trimmed (Py.strip s).
Proof.
  unfold Py.strip. split; [|apply rstrip_last].
  intros c Hc. destruct (str_head (Py.lstrip s)) as [a|] eqn:Hhead.
  - pose proof (lstrip_head s a Hhead) as Ha.
    rewrite (rstrip_head _ a Hhead Ha) in Hc. by injection Hc as <-.
  - destruct (Py.lstrip s); [done|discriminate Hhead].
Qed.

Lemma lstrip_fixed (s : string) :
  (forall c, str_head s = Some c -> Py.is_space c = false) -> Py.lstrip s = s.
Proof.
  destruct s as [|a s]; [done|]. intros H. simpl. by rewrite (H a eq_refl).
Qed.

Lemma rstrip_fixed (s : string) :
  (forall c, str_last s = Some c -> Py.is_space c = false) -> Py.rstrip s = s.
Proof.
  induction s as [|a s IH]; [done|]. intros H. simpl.
  destruct s as [|b s].
  - simpl. by rewrite (H a eq_refl).
  - rewrite IH; [done|]. intros c Hc. by apply H.
Qed.

Lemma strip_fixed (s : string) : trimmed s -> Py.strip s = s.
Proof.
  intros [Hh Hl]. unfold Py.strip. rewrite (lstrip_fixed s Hh). by apply rstrip_fixed.
Qed.

(** The answer that comes back with the sources is the Generator's reply
    without the white space around it: neither end of the answer is white
    space, and stripping it again changes nothing. *)
Theorem answer_is_stripped (env : Env) (question : string) (v : list float)
    (matches : list Match) (response : string) :
  retrieves env question v matches -> matches <> [] ->
  generator_replies env (bounded_prompt question (contexts_of matches)) response ->
  exists (answer : string) (sources : list Source),
    snd (run (generate_answer env question)) = Ok (answer, sources) /\
    answer = Py.strip response /\
    trimmed answer /\
    Py.strip answer = answer.
Proof.
  intros Hret Hne Hgen.
  rewrite (generate_answer_matches env question v matches response Hret Hne Hgen).
  exists (Py.strip response), (map source_of matches).
  repeat split; try apply strip_trimmed. apply strip_fixed, strip_trimmed.
Qed.

Lemma answer_is_stripped_witness :
  let matches := [preview_match "m1" 10] in
  let env := demo_env matches ("  Tomorrow at 2 PM. " +:+ Py.LF) in
  exists sources : list Source,
    snd (run (generate_answer env "When is the meeting?"))
    = Ok ("Tomorrow at 2 PM.", sources).
Proof.
  intros matches env.
  destruct (answer_is_stripped env "When is the meeting?" [] matches
              ("  Tomorrow at 2 PM. " +:+ Py.LF))
    as (answer & sources & Hres & Hans & _);
    [repeat split | discriminate | repeat split |].
  exists sources. rewrite Hres, Hans. reflexivity.
Defined.

(** ** The size of the prompt *)

Lemma len_build_prompt_total (question : string) (contexts : list string) :
  Py.len (build_prompt question contexts)
  = 114 + Py.len question + total_len contexts
    + 2 * Z.max 0 (Z.of_nat (length contexts) - 1).
Proof.
  rewrite len_build_prompt. destruct contexts as [|c rest].
  - simpl. change (Py.len EmptyString) with 0. lia.
  - rewrite len_join by done. rewrite len_app.
    change (Py.len Py.LF) with 1. simpl length. lia.
Qed.

(** The prompt is 114 characters of template, the question, the blocks,
    and two characters between consecutive blocks. *)
Theorem build_prompt_length (question : string) (contexts : list string) :
  Py.len (build_prompt question contexts)
  = 114 + Py.len question + total_len contexts
    + 2 * Z.max 0 (Z.of_nat (length contexts) - 1).
Proof. apply len_build_prompt_total. Qed.

(** How far over the budget the prompt can be.  A prompt that was within
    the budget is sent as it is.  One that was over it is rebuilt from the
    first [k] blocks: with no block it is the template and the question,
    114 characters and the question; with [k >= 1] blocks it is at most
    [13 + 2 (k - 1)] characters over the budget, the part of the template
    and of the separators that the allowance of 100 does not cover. *)
Theorem prompt_overshoot_bound (question : string) (contexts : list string) :
  (Py.len (build_prompt question contexts) <= MAX_CONTEXT_LENGTH ->
   bounded_prompt question contexts = build_prompt question contexts /\
   Py.len (bounded_prompt question contexts) <= MAX_CONTEXT_LENGTH) /\
  (MAX_CONTEXT_LENGTH < Py.len (build_prompt question contexts) ->
   exists k : nat,
     (k <= length contexts)%nat /\
     bounded_prompt question contexts = build_prompt question (take k contexts) /\
     (k = 0%nat ->
      Py.len (bounded_prompt question contexts) = 114 + Py.len question) /\
     ((1 <= k)%nat ->
      Py.len (bounded_prompt question contexts)
      <= MAX_CONTEXT_LENGTH + 13 + 2 * (Z.of_nat k - 1))).
Proof.
  split.
  - intros Hfit. rewrite (bounded_prompt_fits _ _ Hfit). by split.
  - intros Hbig. rewrite (bounded_prompt_exceeds _ _ Hbig).
    destruct (truncate_contexts_take question contexts) as (k & Hk & -> & Hin & _).
    exists k. split; [done|]. split; [done|].
    rewrite len_build_prompt_total, length_take.
    split.
    + intros ->. rewrite take_0. simpl. lia.
    + intros Hpos. specialize (Hin k). unfold available_for in Hin. lia.
Qed.

(** Five blocks of which the loop keeps one: the prompt is 3013 characters
    long, thirteen over the budget. *)
Lemma prompt_overshoot_bound_witness :
  let question := "Who wrote about Rome" in
  let contexts := contexts_of [preview_match "m1" 2836; preview_match "m2" 10;
                               preview_match "m3" 10; preview_match "m4" 10;
                               preview_match "m5" 10] in
  MAX_CONTEXT_LENGTH < Py.len (build_prompt question contexts) /\
  Py.len (bounded_prompt question contexts) = 3013 /\
  exists k : nat,
    (1 <= k)%nat /\
    bounded_prompt question contexts = build_prompt question (take k contexts) /\
    Py.len (bounded_prompt question contexts)
    <= MAX_CONTEXT_LENGTH + 13 + 2 * (Z.of_nat k - 1).
Proof.
  intros question contexts.
  assert (Hbig : MAX_CONTEXT_LENGTH < Py.len (build_prompt question contexts))
    by (vm_compute; reflexivity).
  assert (Hlen : Py.len (bounded_prompt question contexts) = 3013)
    by (vm_compute; reflexivity).
  split; [exact Hbig|]. split; [exact Hlen|].
  destruct (proj2 (prompt_overshoot_bound question contexts) Hbig)
    as (k & _ & Heq & Hzero & Hpos).
  assert (Hk : (1 <= k)%nat).
  { destruct k as [|k]; [|lia]. specialize (Hzero eq_refl).
    rewrite Hlen in Hzero. vm_compute in Hzero. discriminate Hzero. }
  exists k. split; [exact Hk|]. split; [exact Heq | exact (Hpos Hk)].
Defined.

(** A question of [MAX_CONTEXT_LENGTH - 100] characters or more leaves no
    room: whatever the matches, the prompt goes out with no context block. *)
Theorem long_question_drops_all_context (question : string) (contexts : list string) :
  MAX_CONTEXT_LENGTH - 100 <= Py.len question ->
  bounded_prompt question contexts = build_prompt question [].
Proof.
  intros Hlong. destruct contexts as [|c rest].
  - unfold bounded_prompt. by destruct (_ <? _).
  - rewrite bounded_prompt_exceeds.
    + unfold truncate_contexts. simpl.
      pose proof (len_nonneg c).
      destruct (Z.ltb_spec (0 + Py.len c) (MAX_CONTEXT_LENGTH - Py.len question - 100));
        [lia | done].
    + rewrite len_build_prompt_total. pose proof (total_len_nonneg (c :: rest)).
      unfold MAX_CONTEXT_LENGTH in *. lia.
Qed.

Lemma long_question_drops_all_context_witness :
  bounded_prompt (Py.times "a" 2900) (contexts_of [preview_match "m1" 10])
  = build_prompt (Py.times "a" 2900) [].
Proof.
  apply long_question_drops_all_context. vm_compute. discriminate.
Defined.

Lemma take_total_le (contexts : list string) (j : nat) :
  total_len (take j contexts) <= total_len contexts.
Proof.
  revert j. induction contexts as [|c rest IH]; intros [|j]; simpl; try lia.
  - pose proof (total_len_nonneg rest). pose proof (len_nonneg c). lia.
  - specialize (IH j). lia.
Qed.

Lemma truncate_loop_all (available : Z) (contexts kept : list string) (current : Z) :
  (forall j : nat, (1 <= j <= length contexts)%nat ->
     current + total_len (take j contexts) < available) ->
  truncate_loop available kept current contexts = kept ++ contexts.
Proof.
  revert kept current. induction contexts as [|c rest IH]; intros kept current Hall.
  - simpl. by rewrite app_nil_r.
  - simpl truncate_loop.
    destruct (Z.ltb_spec (current + Py.len c) available) as [Hlt|Hge].
    + rewrite IH; [by rewrite <- app_assoc|].
      intros j Hj. specialize (Hall (S j)). simpl in Hall. lia.
    + specialize (Hall 1%nat). simpl in Hall. lia.
Qed.

(** Blocks that sum to less than the available budget all pass the loop,
    and the loop applied to what it kept keeps it all: truncating twice is
    truncating once. *)
Theorem truncation_is_stable (question : string) (contexts : list string) :
  (total_len contexts < MAX_CONTEXT_LENGTH - Py.len question - 100 ->
   truncate_contexts question contexts = contexts) /\
  truncate_contexts question (truncate_contexts question contexts)
    = truncate_contexts question contexts.
Proof.
  split.
  - intros Hsum. unfold truncate_contexts.
    rewrite truncate_loop_all; [done|].
    intros j _. pose proof (take_total_le contexts j). lia.
  - destruct (truncate_contexts_take question contexts) as (k & Hk & Heq & Hin & _).
    rewrite Heq. unfold truncate_contexts.
    rewrite truncate_loop_all; [done|].
    intros j Hj. rewrite length_take in Hj.
    rewrite take_take. replace (j `min` k)%nat with j by lia.
    specialize (Hin j). unfold available_for in Hin. lia.
Qed.

Lemma truncation_is_stable_witness :
  truncate_contexts "Who wrote about Rome"
    (contexts_of [preview_match "m1" 1000; preview_match "m2" 1000])
  = contexts_of [preview_match "m1" 1000; preview_match "m2" 1000].
Proof.
  apply (proj1 (truncation_is_stable "Who wrote about Rome" _)).
  vm_compute. reflexivity.
Defined.

(** ** Embedding a list of texts *)

Lemma embed_loop_success (env : Env) (url model : string) (vec : string -> list float)
    (texts : list string) (acc : list (list float)) (log : list event) :
  (forall t, In t texts -> post_embeddings env url model t = Reply (Some (vec t))) ->
  embed_loop env url model texts acc log
  = (log ++ map (EvEmbeddingsPost url model) texts, Ok (acc ++ map vec texts)).
Proof.
  revert acc log. induction texts as [|t rest IH]; intros acc log Hall.
  - simpl. by rewrite !app_nil_r.
  - simpl. unfold mbind, M_bind, emit. simpl.
    rewrite (Hall t (or_introl eq_refl)).
    rewrite IH by (intros t' Ht'; apply Hall; by right).
    by rewrite <- !app_assoc.
Qed.

Lemma embed_loop_length (env : Env) (url model : string) (texts : list string)
    (acc : list (list float)) (log log' : list event) (embeddings : list (list float)) :
  embed_loop env url model texts acc log = (log', Ok embeddings) ->
  length embeddings = (length acc + length texts)%nat.
Proof.
  revert acc log. induction texts as [|t rest IH]; intros acc log.
  - simpl. unfold mret, M_ret. intros [= _ <-]. lia.
  - simpl. unfold mbind, M_bind, emit. simpl.
    destruct (post_embeddings env url model t) as [[embedding|]|msg]; try done.
    intros H. apply IH in H. rewrite length_app in H. simpl in *. lia.
Qed.

(** When the embedder answers every text, [get_embeddings] returns one
    vector per text, in the order of the texts, after one request per text
    in that order; for no text at all it returns the empty list without
    any request. *)
Theorem get_embeddings_in_order (env : Env) (texts : list string)
    (model : option string) (vec : string -> list float) (log : list event) :
  (forall t, In t texts ->
     post_embeddings env (embeddings_url env) (default (OLLAMA_MODEL env) model) t
     = Reply (Some (vec t))) ->
  get_embeddings env texts model log
  = (log ++ map (EvEmbeddingsPost (embeddings_url env)
                   (default (OLLAMA_MODEL env) model)) texts,
     Ok (map vec texts)).
Proof.
  intros Hall. unfold get_embeddings.
  apply (embed_loop_success env _ _ vec texts [] log Hall).
Qed.

Lemma get_embeddings_in_order_witness :
  get_embeddings (demo_env [] "unused") ["first"; "second"] None []
  = ([ EvEmbeddingsPost "http://localhost:11434/api/embeddings" "nomic-embed-text" "first";
       EvEmbeddingsPost "http://localhost:11434/api/embeddings" "nomic-embed-text" "second" ],
     Ok [ []; [] ]).
Proof.
  apply (get_embeddings_in_order (demo_env [] "unused") ["first"; "second"] None
           (fun _ => []) []).
  intros t _. reflexivity.
Defined.

(** The first text the embedder fails on ends [get_embeddings]: the
    vectors already obtained are dropped with the exception, and the texts
    after it are never sent. *)
Theorem get_embeddings_first_failure (env : Env) (before after : list string)
    (bad : string) (model : option string) (vec : string -> list float)
    (log : list event) :
  (forall t, In t before ->
     post_embeddings env (embeddings_url env) (default (OLLAMA_MODEL env) model) t
     = Reply (Some (vec t))) ->
  (forall msg,
     post_embeddings env (embeddings_url env) (default (OLLAMA_MODEL env) model) bad
       = RequestException msg ->
     get_embeddings env (before ++ bad :: after) model log
     = (log ++ map (EvEmbeddingsPost (embeddings_url env)
                      (default (OLLAMA_MODEL env) model)) (before ++ [bad]),
        Raise (Exception ("Ollama embedding API error: " +:+ msg)))) /\
  (post_embeddings env (embeddings_url env) (default (OLLAMA_MODEL env) model) bad
     = Reply None ->
   get_embeddings env (before ++ bad :: after) model log
   = (log ++ map (EvEmbeddingsPost (embeddings_url env)
                    (default (OLLAMA_MODEL env) model)) (before ++ [bad]),
      Raise (Exception "Unexpected response format from Ollama: 'embedding'"))).
Proof.
  unfold get_embeddings, embeddings_url. cbv zeta.
  set (url := OLLAMA_BASE_URL env +:+ "/api/embeddings").
  set (mdl := default (OLLAMA_MODEL env) model).
  intros Hbefore.
  generalize (@nil (list float)) as acc. revert log.
  induction before as [|t rest IH]; intros log acc.
  - split; [intros msg Hbad | intros Hbad]; simpl;
      unfold mbind, M_bind, emit; simpl; by rewrite Hbad.
  - assert (Hrest : forall t', In t' rest ->
      post_embeddings env url mdl t' = Reply (Some (vec t')))
      by (intros t' Ht'; apply Hbefore; by right).
    destruct (IH Hrest (log ++ [EvEmbeddingsPost url mdl t]) (acc ++ [vec t]))
      as [IHreq IHnone].
    split; [intros msg Hbad | intros Hbad]; simpl;
      unfold mbind, M_bind, emit; simpl;
      rewrite (Hbefore t (or_introl eq_refl));
      [rewrite (IHreq msg Hbad) | rewrite (IHnone Hbad)];
      by rewrite <- !app_assoc.
Qed.

Lemma get_embeddings_first_failure_witness :
  let env := {| LLM_PROVIDER := "ollama"; OLLAMA_BASE_URL := "http://localhost:11434";
                OLLAMA_MODEL := "nomic-embed-text"; LLAMA_MODEL := "llama3.2";
                pinecone_connect := Ok tt;
                index_query := fun _ _ => Ok [];
                post_embeddings := fun _ _ text =>
                  if String.eqb text "second" then RequestException "timed out"
                  else Reply (Some []);
                post_generate := fun _ _ => Reply (Some "x") |} in
  get_embeddings env ["first"; "second"; "third"] None []
  = ([ EvEmbeddingsPost "http://localhost:11434/api/embeddings" "nomic-embed-text" "first";
       EvEmbeddingsPost "http://localhost:11434/api/embeddings" "nomic-embed-text" "second" ],
     Raise (Exception "Ollama embedding API error: timed out")).
Proof.
  intros env.
  apply (proj1 (get_embeddings_first_failure env ["first"] ["third"] "second" None
                  (fun _ => []) []
                  ltac:(intros t [<-|[]]; reflexivity)) "timed out").
  reflexivity.
Defined.

(** ** Cleaning a text *)

Lemma single_spaced_weaken (s : string) :
  single_spaced true s = true -> single_spaced false s = true.
Proof.
  destruct s as [|c s]; simpl; [done|].
  destruct (Py.is_space c); [|done]. rewrite andb_false_r. done.
Qed.

Lemma collapse_single_spaced (b : bool) (s : string) :
  single_spaced b (collapse_spaces b s) = true.
Proof.
  revert b. induction s as [|c s IH]; intros b; simpl; [done|].
  destruct (Py.is_space c) eqn:Hc.
  - destruct b; [apply IH|]. simpl. by rewrite IH.
  - simpl. rewrite Hc. apply IH.
Qed.

Lemma lstrip_single_spaced (b : bool) (s : string) :
  single_spaced b s = true -> single_spaced false (Py.lstrip s) = true.
Proof.
  revert b. induction s as [|c s IH]; intros b; simpl; [done|].
  destruct (Py.is_space c) eqn:Hc.
  - intros H. apply andb_prop in H as [_ H]. by apply (IH true).
  - intros H. simpl. by rewrite Hc.
Qed.

Lemma rstrip_single_spaced (b : bool) (s : string) :
  single_spaced b s = true -> single_spaced b (Py.rstrip s) = true.
Proof.
  revert b. induction s as [|c s IH]; intros b; simpl; [done|].
  destruct (Py.rstrip s) as [|a r] eqn:Hr.
  - destruct (Py.is_space c) eqn:Hc; simpl; [done|]. by rewrite Hc.
  - rewrite <- Hr in *. clear Hr.
    destruct (Py.is_space c) eqn:Hc; simpl; rewrite Hc.
    + intros H. apply andb_prop in H as [H1 H2]. rewrite H1. by apply IH.
    + apply IH.
Qed.

(** Whatever the text, its cleaned form has white space only as single
    blanks between other characters: no line break or tab is left, no two
    blanks follow each other, and neither end is a blank. *)
Theorem clean_text_normal_form (text : string) :
  single_spaced false (clean_text text) = true /\ trimmed (clean_text text).
Proof.
  unfold clean_text. split; [|apply strip_trimmed].
  unfold Py.strip. apply rstrip_single_spaced, (lstrip_single_spaced false).
  apply collapse_single_spaced.
Qed.

Lemma lstrip_empty (s : string) : Py.lstrip s = EmptyString <-> all_space s = true.
Proof.
  induction s as [|c s IH]; simpl; [done|].
  destruct (Py.is_space c); simpl; [exact IH | split; discriminate].
Qed.

Lemma rstrip_empty (s : string) : Py.rstrip s = EmptyString <-> all_space s = true.
Proof.
  induction s as [|c s IH]; simpl; [done|].
  destruct (Py.rstrip s) as [|a r].
  - destruct (Py.is_space c); simpl; [|split; discriminate].
    split; intros _; [by apply IH | done].
  - split; [discriminate|]. intros H. apply andb_prop in H as [_ H].
    by apply IH in H.
Qed.

Lemma lstrip_all_space (s : string) :
  all_space (Py.lstrip s) = true <-> all_space s = true.
Proof.
  induction s as [|c s IH]; simpl; [done|].
  destruct (Py.is_space c) eqn:Hc; simpl; [exact IH|]. by rewrite Hc.
Qed.

Lemma strip_empty (s : string) : Py.strip s = EmptyString <-> all_space s = true.
Proof. unfold Py.strip. by rewrite rstrip_empty, lstrip_all_space. Qed.

Lemma collapse_all_space (b : bool) (s : string) :
  all_space (collapse_spaces b s) = all_space s.
Proof.
  revert b. induction s as [|c s IH]; intros b; simpl; [done|].
  destruct (Py.is_space c) eqn:Hc; simpl.
  - destruct b; simpl; apply IH.
  - by rewrite Hc.
Qed.

Lemma remove_tags_unclosed (text : string) :
  index_of_gt text = None -> remove_tags O text = text.
Proof.
  induction text as [|c s IH]; simpl; [done|].
  destruct (Ascii.eqb c ">"); [done|].
  destruct (index_of_gt s) as [i|] eqn:Hi; [done|]. intros _.
  unfold tag_end. rewrite Hi. rewrite (IH eq_refl). by destruct (Ascii.eqb c "<").
Qed.

Lemma all_space_no_gt (s : string) : all_space s = true -> index_of_gt s = None.
Proof.
  induction s as [|c s IH]; simpl; [done|]. intros H.
  apply andb_prop in H as [Hc Hs].
  destruct (Ascii.eqb_spec c ">") as [->|_]; [discriminate Hc|].
  by rewrite (IH Hs).
Qed.

(** The cleaned text is empty exactly when nothing but white space is
    left once the tags are removed; in particular a text of white space
    only, such as a lone line break, cleans to the empty string. *)
Theorem clean_text_empty_iff (text : string) :
  (clean_text text = EmptyString <-> all_space (remove_tags O text) = true) /\
  (all_space text = true -> clean_text text = EmptyString).
Proof.
  assert (Hiff : clean_text text = EmptyString
                 <-> all_space (remove_tags O text) = true).
  { unfold clean_text. by rewrite strip_empty, collapse_all_space. }
  split; [exact Hiff|].
  intros Hall. apply Hiff. by rewrite (remove_tags_unclosed text (all_space_no_gt text Hall)).
Qed.

Lemma clean_text_empty_iff_witness :
  all_space (Py.LF +:+ "  " +:+ Py.LF) = true /\
  clean_text (Py.LF +:+ "  " +:+ Py.LF) = EmptyString.
Proof.
  split; [reflexivity|].
  apply (proj2 (clean_text_empty_iff (Py.LF +:+ "  " +:+ Py.LF))). reflexivity.
Defined.

Lemma remove_tags_skip (a b : string) :
  remove_tags (String.length a) (a +:+ b) = remove_tags O b.
Proof.
  induction a as [|c a IH]; [reflexivity|].
  change (String c a +:+ b) with (String c (a +:+ b)). simpl. exact IH.
Qed.

Lemma remove_tags_plain (pre rest : string) :
  (forall c, In c (list_ascii_of_string pre) -> c <> "<"%char) ->
  remove_tags O (pre +:+ rest) = pre +:+ remove_tags O rest.
Proof.
  induction pre as [|c pre IH]; intros Hno; [reflexivity|].
  change (String c pre +:+ rest) with (String c (pre +:+ rest)).
  change (String c pre +:+ remove_tags O rest)
    with (String c (pre +:+ remove_tags O rest)).
  simpl remove_tags.
  destruct (Ascii.eqb_spec c "<") as [->|_].
  - exfalso. apply (Hno "<"%char); [by left | done].
  - rewrite IH; [done|]. intros c' Hc'. apply Hno. by right.
Qed.

Lemma index_of_gt_app (tag post : string) :
  index_of_gt tag = None ->
  index_of_gt (tag +:+ String ">" post) = Some (String.length tag).
Proof.
  induction tag as [|c tag IH]; [reflexivity|].
  change (String c tag +:+ String ">" post) with (String c (tag +:+ String ">" post)).
  simpl. destruct (Ascii.eqb c ">"); [done|].
  destruct (index_of_gt tag) as [i|] eqn:Hi; [done|]. intros _.
  by rewrite (IH eq_refl).
Qed.

(** What counts as a tag.  A ['<'], then at least one character other
    than ['>'], then ['>'], are removed together, wherever the text before
    holds no ['<']; a ['<'] that no ['>'] follows stays, with all that comes
    after it. *)
Theorem remove_tags_cases (pre tag post text : string) :
  ((forall c, In c (list_ascii_of_string pre) -> c <> "<"%char) ->
   index_of_gt tag = None -> tag <> EmptyString ->
   remove_tags O (pre +:+ String "<" (tag +:+ String ">" post))
   = pre +:+ remove_tags O post) /\
  (index_of_gt text = None ->
   clean_text text = Py.strip (collapse_spaces false text)).
Proof.
  split.
  - intros Hpre Htag Hne. rewrite (remove_tags_plain _ _ Hpre). f_equal.
    simpl remove_tags. unfold tag_end. rewrite (index_of_gt_app tag post Htag).
    destruct tag as [|c tag]; [done|].
    replace (String c tag +:+ String ">" post)
      with ((String c tag +:+ ">") +:+ post) by (by rewrite str_app_assoc).
    cbn [String.length].
    replace (S (S (String.length tag)))
      with (String.length (String c tag +:+ ">")).
    + apply remove_tags_skip.
    + pose proof (len_app (String c tag) ">") as Hlen. unfold Py.len in Hlen.
      simpl String.length in *. lia.
  - intros Hno. unfold clean_text. by rewrite (remove_tags_unclosed text Hno).
Qed.

Lemma remove_tags_cases_witness :
  remove_tags O ("Hello " +:+ String "<" ("b" +:+ String ">" "world"))
  = "Hello " +:+ remove_tags O "world".
Proof.
  apply (proj1 (remove_tags_cases "Hello " "b" "world" EmptyString)).
  - intros c Hc ->. vm_compute in Hc. intuition discriminate.
  - reflexivity.
  - discriminate.
Defined.

(** ** Where the extracted body comes from *)

Lemma plain_data_part_ok (part : Payload) (o : option string) :
  plain_data_of_part part = Ok o -> plain_data_of_single part = o.
Proof.
  unfold plain_data_of_part, plain_data_of_single.
  case_bool_decide; [|by intros [= <-]].
  destruct (body_of part); [by intros [= <-] | done].
Qed.

Lemma plain_data_part_raise (part : Payload) (e : exn) :
  plain_data_of_part part = Raise e ->
  e = KeyError "body" /\ mimeType_of part = Some "text/plain" /\ body_of part = None.
Proof.
  unfold plain_data_of_part. case_bool_decide as Hplain; [|done].
  destruct (body_of part); [done|]. by intros [= <-].
Qed.

Section ExtractOutcomes.

Variable decode_text : string -> result string.

Lemma decoded_body_accounted (d : string) (leaves : list string) (bodies : Prop) :
  In d leaves -> accounted decode_text leaves (decoded_body decode_text d) bodies.
Proof.
  intros Hd. unfold accounted.
  destruct (decoded_body decode_text d) as [t|e] eqn:Hdec.
  - right. by exists d.
  - right. exists d. split; [done|]. unfold decoded_body in Hdec.
    by destruct (decode_text d); simplify_eq.
Qed.

Lemma accounted_mono (l1 l2 : list string) (r : result string) (b1 b2 : Prop) :
  (forall d, In d l1 -> In d l2) -> (b2 -> b1) ->
  accounted decode_text l1 r b1 -> accounted decode_text l2 r b2.
Proof.
  intros Hl Hb. destruct r as [t|e]; simpl.
  - intros [->|(d & Hd & Hdec)]; [by left | right; exists d; auto].
  - intros [[-> Hnb]|(d & Hd & Hdec)]; [left; auto | right; exists d; auto].
Qed.

Lemma extract_parts_accounted (ps : list Payload) :
  Forall (fun p => accounted decode_text (plain_leaves p)
                     (extract_email_body decode_text p) (parts_have_body p)) ps ->
  accounted decode_text (plain_leaves_parts ps) (extract_parts decode_text ps)
    (parts_have_body_parts ps).
Proof.
  induction 1 as [|part rest Hpart _ IH]; [by left|].
  simpl extract_parts. simpl plain_leaves_parts. simpl parts_have_body_parts.
  destruct (plain_data_of_part part) as [[d|]|e] eqn:Hdirect.
  - rewrite (plain_data_part_ok part _ Hdirect).
    apply decoded_body_accounted. by left.
  - rewrite (plain_data_part_ok part _ Hdirect).
    destruct (is_multipart part) eqn:Hmulti.
    + destruct (extract_email_body decode_text part) as [text|e] eqn:Hsub.
      * destruct (Py.truthy text) eqn:Htext.
        { eapply accounted_mono; [| |exact Hpart].
          - intros d Hd. apply in_or_app. by left.
          - intros (_ & Hb & _). by apply Hb. }
        eapply accounted_mono; [| |exact IH].
        { intros d Hd. apply in_or_app. by right. }
        by intros (_ & _ & Hb).
      * eapply accounted_mono; [| |exact Hpart].
        { intros d Hd. apply in_or_app. by left. }
        intros (_ & Hb & _). by apply Hb.
    + eapply accounted_mono; [| |exact IH]; [done|]. by intros (_ & _ & Hb).
  - apply plain_data_part_raise in Hdirect as (-> & Hplain & Hnone).
    left. split; [done|]. intros (Hb & _). by apply Hb.
Qed.

Lemma extract_accounted (payload : Payload) :
  accounted decode_text (plain_leaves payload) (extract_email_body decode_text payload)
    (parts_have_body payload).
Proof.
  induction payload as [m b|m b ps IH] using Payload_tree_ind.
  - simpl. destruct (plain_data_of_single (mkPayload m b None)) as [d|] eqn:Hd.
    + apply decoded_body_accounted. by left.
    + by left.
  - rewrite extract_node, plain_leaves_node, parts_have_body_node.
    by apply extract_parts_accounted.
Qed.

End ExtractOutcomes.

(** The body that [extract_email_body] returns is never made up: it is
    the empty string or the cleaned decoded text of one of the text/plain
    leaves the search can reach. *)
Theorem extracted_body_is_a_leaf (decode_text : string -> result string)
    (payload : Payload) (text : string) :
  extract_email_body decode_text payload = Ok text ->
  text = EmptyString \/
  exists d, In d (plain_leaves payload) /\ decoded_body decode_text d = Ok text.
Proof.
  intros H. pose proof (extract_accounted decode_text payload) as Hacc.
  by rewrite H in Hacc.
Qed.

Lemma extracted_body_is_a_leaf_witness :
  exists d, In d (plain_leaves message_with_blank_text) /\
            decoded_body urlsafe_b64decode_text d = Ok "Footer".
Proof.
  destruct (extracted_body_is_a_leaf urlsafe_b64decode_text
              message_with_blank_text "Footer") as [Hempty|Hleaf].
  - vm_compute. reflexivity.
  - discriminate Hempty.
  - exact Hleaf.
Defined.

(** The exceptions of [extract_email_body]: the [KeyError] of a
    text/plain part without a body, or what the decoder raised on the data
    of a leaf; on a payload whose text/plain parts all have a body, only
    the latter. *)
Theorem extraction_errors (decode_text : string -> result string)
    (payload : Payload) (e : exn) :
  extract_email_body decode_text payload = Raise e ->
  (e = KeyError "body" /\ ~ parts_have_body payload) \/
  exists d, In d (plain_leaves payload) /\ decode_text d = Raise e.
Proof.
  intros H. pose proof (extract_accounted decode_text payload) as Hacc.
  by rewrite H in Hacc.
Qed.

Lemma extraction_errors_witness :
  let payload := container "multipart/mixed" [leaf "text/plain" "SGVsb"] in
  exists d e, In d (plain_leaves payload) /\ urlsafe_b64decode_text d = Raise e.
Proof.
  intros payload.
  destruct (extraction_errors urlsafe_b64decode_text payload
              (BinasciiError
                 "Invalid base64-encoded string: number of data characters (5) cannot be 1 more than a multiple of 4"))
    as [[Hkey _]|(d & Hd & Hdec)].
  - vm_compute. reflexivity.
  - discriminate Hkey.
  - exists d. eexists. split; [exact Hd | exact Hdec].
Defined.

(** Only text/plain parts with data and multipart parts are looked at: a
    message whose parts are all of other kinds, such as an HTML body or an
    attached message with its own text inside, has the empty body. *)
Theorem other_parts_are_not_searched (decode_text : string -> result string)
    (m : option string) (b : option Body) (ps : list Payload) :
  Forall (fun part => mimeType_of part <> Some "text/plain" /\
                      is_multipart part = false) ps ->
  extract_email_body decode_text (mkPayload m b (Some ps)) = Ok EmptyString.
Proof.
  intros Hall. rewrite extract_node.
  induction Hall as [|part rest [Hplain Hmulti] _ IH]; [reflexivity|].
  simpl. unfold plain_data_of_part.
  rewrite bool_decide_eq_false_2 by done. by rewrite Hmulti.
Qed.

Lemma other_parts_are_not_searched_witness :
  extract_email_body urlsafe_b64decode_text
    (container "multipart/mixed"
       [ leaf "text/html" "PHA-SGk8L3A-";
         container "message/rfc822" [leaf "text/plain" "Rm9vdGVy"] ])
  = Ok EmptyString.
Proof.
  apply other_parts_are_not_searched.
  repeat constructor; discriminate.
Defined.

(** ** Ingestion: metadata, texts and vectors *)

Lemma str_take_length (n : nat) (s : string) :
  (String.length (str_take n s) <= n)%nat.
Proof.
  revert s. induction n as [|n IH]; intros [|c s]; simpl; try lia.
  specialize (IH s). lia.
Qed.

Lemma str_take_truthy (n : nat) (s : string) :
  Py.truthy (str_take (S n) s) = Py.truthy s.
Proof. by destruct s. Qed.

Lemma filter_truthy_lookup (m : gmap string string) (k : string) :
  filter (fun kv : string * string => Py.truthy kv.2 = true) m !! k
  = match m !! k with
    | Some v => if Py.truthy v then Some v else None
    | None => None
    end.
Proof.
  destruct (m !! k) as [v|] eqn:Hk.
  - destruct (Py.truthy v) eqn:Hv.
    + by apply map_lookup_filter_Some.
    + apply map_lookup_filter_None. right. intros v' Hv'. simpl.
      rewrite Hk in Hv'. injection Hv' as <-. by rewrite Hv.
  - apply map_lookup_filter_None. by left.
Qed.

(** What ingestion stores with a vector holds no empty value, no key
    beyond the six of [prepare_email_vectors], a snippet of at most 500
    characters and a body preview of at most 1000. *)
Theorem stored_metadata_invariant (email : gmap string string) (k v : string) :
  email_metadata email !! k = Some v ->
  v <> EmptyString /\
  In k ["subject"; "snippet"; "from"; "date"; "threadId"; "body_preview"] /\
  (k = "snippet" -> Py.len v <= 500) /\
  (k = "body_preview" -> Py.len v <= 1000).
Proof.
  unfold email_metadata. cbv zeta. rewrite filter_truthy_lookup.
  set (raw := <["subject" := _]> _).
  destruct (raw !! k) as [v'|] eqn:Hraw; [|done].
  destruct (Py.truthy v') eqn:Hv; [|done]. intros [= ->].
  split; [by destruct v|].
  unfold raw in Hraw.
  repeat (apply lookup_insert_Some in Hraw as [[<- <-]|[? Hraw]];
          [ split; [simpl; tauto|];
            split; intros Hk; try discriminate Hk;
            match goal with
            | |- Py.len (str_take ?n ?s) <= _ =>
                pose proof (str_take_length n s); unfold Py.len; lia
            end
          | ]).
  by rewrite lookup_empty in Hraw.
Qed.

Lemma stored_metadata_invariant_witness :
  let email : gmap string string :=
    {[ "id" := "m1"; "subject" := "Lunch"; "from" := EmptyString;
       "snippet" := Py.times "s" 600 ]} in
  email_metadata email !! "snippet" = Some (Py.times "s" 500) /\
  Py.len (Py.times "s" 500) <= 500.
Proof.
  intros email.
  assert (H : email_metadata email !! "snippet" = Some (Py.times "s" 500))
    by (vm_compute; reflexivity).
  split; [exact H|].
  exact (proj1 (proj2 (proj2 (stored_metadata_invariant email _ _ H))) eq_refl).
Defined.

Lemma email_metadata_lookup (email : gmap string string) (k : string) :
  In k ["subject"; "from"; "date"] ->
  dict_get (email_metadata email) k "N/A" = or_na (dict_get email k EmptyString).
Proof.
  intros Hk. unfold dict_get at 1, email_metadata, or_na. cbv zeta.
  rewrite filter_truthy_lookup.
  destruct Hk as [<-|[<-|[<-|[]]]];
    rewrite ?lookup_insert_eq, ?(lookup_insert_ne _ _ _ _) by done;
    rewrite ?lookup_insert_eq;
    by destruct (Py.truthy _).
Qed.

Lemma email_metadata_snippet (email : gmap string string) :
  dict_get (email_metadata email) "snippet" EmptyString
  = str_take 500 (dict_get email "snippet" EmptyString).
Proof.
  unfold dict_get at 1, email_metadata. cbv zeta. rewrite filter_truthy_lookup.
  rewrite lookup_insert_ne by done. rewrite lookup_insert_eq.
  by destruct (str_take 500 _).
Qed.

Lemma email_metadata_body_preview (email : gmap string string) :
  email_metadata email !! "body_preview"
  = if Py.truthy (dict_get email "body" EmptyString)
    then Some (str_take 1000 (dict_get email "body" EmptyString)) else None.
Proof.
  unfold email_metadata. cbv zeta. rewrite filter_truthy_lookup.
  rewrite !lookup_insert_ne by done. rewrite lookup_insert_eq.
  by rewrite str_take_truthy.
Qed.

(** From ingestion to the prompt.  The context block built at query time
    from the metadata stored for an email shows the subject, sender and
    date of the email, [N/A] standing for an empty or missing one, and as
    content the first 1000 characters of the body, or, when the body is
    empty, the first 500 of the snippet; the source shows the same first
    500 characters of the snippet. *)
Theorem context_block_of_ingested_email (email : gmap string string)
    (id : string) (score : float) :
  context_block (email_metadata email)
  = "Subject: " +:+ or_na (dict_get email "subject" EmptyString) +:+ Py.LF +:+
    "From: " +:+ or_na (dict_get email "from" EmptyString) +:+ Py.LF +:+
    "Date: " +:+ or_na (dict_get email "date" EmptyString) +:+ Py.LF +:+
    "Content: " +:+
      (if Py.truthy (dict_get email "body" EmptyString)
       then str_take 1000 (dict_get email "body" EmptyString)
       else str_take 500 (dict_get email "snippet" EmptyString)) +:+ Py.LF /\
  src_snippet (source_of {| match_id := id; match_score := score;
                            match_metadata := email_metadata email |})
  = str_take 500 (dict_get email "snippet" EmptyString).
Proof.
  split; [|apply email_metadata_snippet].
  unfold context_block. cbv zeta.
  rewrite !email_metadata_lookup by (simpl; tauto).
  rewrite email_metadata_body_preview, email_metadata_snippet.
  rewrite !str_app_assoc. do 12 f_equal.
  destruct (Py.truthy (dict_get email "body" EmptyString)) eqn:Hbody; [|done].
  unfold Py.get_or. by rewrite str_take_truthy, Hbody.
Qed.

Lemma select_loop_kept (emails : list (gmap string string))
    (texts : list string) (valid : list (gmap string string)) :
  (forall email, In email emails -> has_content email = true ->
     is_Some (email !! "subject")) ->
  select_loop emails texts valid
  = Ok (texts ++ map email_text (List.filter has_content emails),
        valid ++ List.filter has_content emails).
Proof.
  revert texts valid. induction emails as [|email rest IH]; intros texts valid Hsub.
  - simpl. by rewrite !app_nil_r.
  - simpl select_loop. simpl List.filter.
    change (Py.truthy (Py.strip (Py.get_or (email !! "body")
              (dict_get email "snippet" EmptyString)))) with (has_content email).
    assert (Hrest : forall e, In e rest -> has_content e = true ->
                      is_Some (e !! "subject"))
      by (intros e He; apply Hsub; by right).
    destruct (has_content email) eqn:Hkeep; [|by apply IH].
    destruct (Hsub email (or_introl eq_refl) Hkeep) as [subject Hsubject].
    rewrite Hsubject, (IH _ _ Hrest). simpl map.
    unfold email_text at 2, dict_get, email_content. rewrite Hsubject. simpl default.
    by rewrite <- !app_assoc.
Qed.

Lemma select_loop_lengths (emails : list (gmap string string))
    (texts texts' : list string) (valid valid' : list (gmap string string)) :
  select_loop emails texts valid = Ok (texts', valid') ->
  length texts = length valid -> length texts' = length valid'.
Proof.
  revert texts valid. induction emails as [|email rest IH]; intros texts valid.
  - simpl. by intros [= <- <-].
  - simpl. destruct (Py.truthy _); [|apply IH].
    destruct (email !! "subject"); [|done].
    intros H Hlen. apply (IH _ _ H). rewrite !length_app. simpl. lia.
Qed.

(** The emails that go on to be embedded are those with some content
    other than white space, in their order, and the text of each is its
    subject line, a blank line and its content: the texts and the emails
    that are kept correspond position by position. *)
Theorem select_contents_keeps_nonblank (emails : list (gmap string string)) :
  (forall email, In email emails -> has_content email = true ->
     is_Some (email !! "subject")) ->
  select_contents emails
  = Ok (map email_text (List.filter has_content emails),
        List.filter has_content emails).
Proof. intros H. unfold select_contents. by rewrite select_loop_kept. Qed.

Lemma select_contents_keeps_nonblank_witness :
  let e1 : gmap string string := {[ "subject" := "Lunch"; "body" := "Noon?" ]} in
  let e2 : gmap string string := {[ "subject" := "Empty"; "snippet" := "  " ]} in
  select_contents [e1; e2]
  = Ok ([ "Subject: Lunch" +:+ Py.LF +:+ Py.LF +:+ "Content: Noon?" ], [e1]).
Proof.
  intros e1 e2.
  rewrite (select_contents_keeps_nonblank [e1; e2]).
  - vm_compute. reflexivity.
  - intros email [<-|[<-|[]]] _; vm_compute; eauto.
Defined.

Lemma prepare_loop_zip (emails : list (gmap string string))
    (embeddings : list (list float)) (vectors : list Vector) :
  (forall email, In email emails -> is_Some (email !! "id")) ->
  prepare_loop emails embeddings vectors
  = Ok (vectors ++ zip_with vector_of emails embeddings).
Proof.
  revert embeddings vectors.
  induction emails as [|email rest IH]; intros embeddings vectors Hid.
  - simpl. by rewrite app_nil_r.
  - destruct embeddings as [|embedding embeddings]; simpl.
    { by rewrite app_nil_r. }
    destruct (Hid email (or_introl eq_refl)) as [id Hemail].
    rewrite Hemail. rewrite IH by (intros e He; apply Hid; by right).
    unfold vector_of at 2, dict_get. rewrite Hemail. simpl default.
    by rewrite <- app_assoc.
Qed.

(** [prepare_email_vectors] pairs the emails with the embeddings by
    position and stops at the shorter list: the emails or the embeddings
    beyond it are left out without an error. *)
Theorem prepare_email_vectors_zips (emails : list (gmap string string))
    (embeddings : list (list float)) :
  (forall email, In email emails -> is_Some (email !! "id")) ->
  exists vectors : list Vector,
    prepare_email_vectors emails embeddings = Ok vectors /\
    vectors = zip_with vector_of emails embeddings /\
    length vectors = Nat.min (length emails) (length embeddings).
Proof.
  intros Hid. exists (zip_with vector_of emails embeddings).
  unfold prepare_email_vectors. rewrite (prepare_loop_zip _ _ _ Hid).
  split; [done|]. split; [done|]. apply length_zip_with.
Qed.

Lemma prepare_email_vectors_zips_witness :
  let e1 : gmap string string := {[ "id" := "m1"; "subject" := "Lunch" ]} in
  let e2 : gmap string string := {[ "id" := "m2"; "subject" := "Dinner" ]} in
  exists vectors : list Vector,
    prepare_email_vectors [e1; e2] [ [] ] = Ok vectors /\ length vectors = 1%nat.
Proof.
  intros e1 e2.
  destruct (prepare_email_vectors_zips [e1; e2] [ [] ]) as (vectors & Hres & _ & Hlen).
  - intros email [<-|[<-|[]]]; vm_compute; eauto.
  - exists vectors. split; [exact Hres | exact Hlen].
Defined.

(** Ingestion loses no email between the selection and the index: when
    the texts of the kept emails were all embedded, there is exactly one
    vector per kept email, carrying that email's id and metadata and the
    embedding of its text. *)
Theorem one_vector_per_kept_email (env : Env) (emails : list (gmap string string))
    (texts : list string) (valid : list (gmap string string))
    (model : option string) (log log' : list event)
    (embeddings : list (list float)) :
  select_contents emails = Ok (texts, valid) ->
  get_embeddings env texts model log = (log', Ok embeddings) ->
  (forall email, In email valid -> is_Some (email !! "id")) ->
  length embeddings = length valid /\
  prepare_email_vectors valid embeddings = Ok (zip_with vector_of valid embeddings) /\
  map vec_id (zip_with vector_of valid embeddings)
    = map (fun email => dict_get email "id" EmptyString) valid.
Proof.
  intros Hsel Hemb Hid.
  assert (Hlen : length embeddings = length valid).
  { unfold get_embeddings in Hemb. apply embed_loop_length in Hemb.
    apply select_loop_lengths in Hsel; [|done]. simpl in Hemb. lia. }
  split; [exact Hlen|]. split.
  - unfold prepare_email_vectors. by rewrite (prepare_loop_zip _ _ _ Hid).
  - clear Hsel Hemb Hid. revert embeddings Hlen.
    induction valid as [|email rest IH]; intros [|embedding embeddings] Hlen;
      simpl in *; try done.
    f_equal. apply IH. lia.
Qed.

Lemma one_vector_per_kept_email_witness :
  let e1 : gmap string string :=
    {[ "id" := "m1"; "subject" := "Lunch"; "body" := "Noon?" ]} in
  let e2 : gmap string string :=
    {[ "id" := "m2"; "subject" := "Empty"; "snippet" := "  " ]} in
  exists vectors : list Vector,
    prepare_email_vectors [e1] [ [] ] = Ok vectors /\ map vec_id vectors = ["m1"].
Proof.
  intros e1 e2.
  destruct (one_vector_per_kept_email (demo_env [] "unused") [e1; e2]
              [ "Subject: Lunch" +:+ Py.LF +:+ Py.LF +:+ "Content: Noon?" ] [e1]
              None []
              [ EvEmbeddingsPost "http://localhost:11434/api/embeddings"
                  "nomic-embed-text"
                  ("Subject: Lunch" +:+ Py.LF +:+ Py.LF +:+ "Content: Noon?") ]
              [ [] ])
    as (_ & Hres & Hids).
  - vm_compute. reflexivity.
  - vm_compute. reflexivity.
  - intros email [<-|[]]. vm_compute. eauto.
  - eexists. split; [exact Hres|]. rewrite Hids. vm_compute. reflexivity.
Defined.

(** ** Fetching *)

Lemma header_value_first (name dflt : string) (headers : list (string * string)) :
  header_value name dflt headers = default dflt (first_header name headers).
Proof.
  unfold first_header. induction headers as [|[n value] rest IH]; [done|].
  simpl. by destruct (String.eqb n name).
Qed.

Lemma make_email_fetched (id : string) (detail : MessageDetail) (body : string) :
  make_email id detail body = fetched_email id detail body.
Proof. unfold make_email, fetched_email. cbv zeta. by rewrite !header_value_first. Qed.

Lemma ascii_only_drop (query : string) :
  (if Py.truthy query then ascii_only query else query) = drop_non_ascii query.
Proof.
  destruct query as [|c rest]; [done|]. simpl Py.truthy. cbv iota.
  unfold ascii_only. generalize (String c rest) as q. clear.
  induction q as [|c q IH]; [done|]. simpl.
  destruct (nat_of_ascii c <? 128)%nat; simpl; by rewrite IH.
Qed.

Section FetchProperties.

Variable service : GmailService.
Variable decode_text : string -> result string.

Lemma fetch_loop_all (user_id : string) (ids : list string)
    (detail : string -> MessageDetail) (body : string -> string)
    (emails : list (gmap string string)) (calls : list gmail_call) :
  (forall id, In id ids -> fetched service decode_text user_id id (detail id) (body id)) ->
  fetch_loop service decode_text user_id ids emails calls
  = (calls ++ map (CallGet user_id) ids,
     emails ++ map (fun id => fetched_email id (detail id) (body id)) ids).
Proof.
  revert emails calls. induction ids as [|id rest IH]; intros emails calls Hall.
  - simpl. by rewrite !app_nil_r.
  - simpl. destruct (Hall id (or_introl eq_refl)) as [Hget Hbody].
    rewrite Hget, Hbody. rewrite IH by (intros i Hi; apply Hall; by right).
    by rewrite make_email_fetched, <- !app_assoc.
Qed.

Lemma fetch_loop_stops (user_id : string) (before after : list string) (bad : string)
    (detail : string -> MessageDetail) (body : string -> string)
    (emails : list (gmap string string)) (calls : list gmail_call) :
  (forall id, In id before ->
     fetched service decode_text user_id id (detail id) (body id)) ->
  fails service decode_text user_id bad ->
  fetch_loop service decode_text user_id (before ++ bad :: after) emails calls
  = (calls ++ map (CallGet user_id) (before ++ [bad]),
     emails ++ map (fun id => fetched_email id (detail id) (body id)) before).
Proof.
  revert emails calls.
  induction before as [|id rest IH]; intros emails calls Hall Hbad.
  - simpl. rewrite app_nil_r.
    destruct Hbad as [[e He]|(d & e & Hd & He)]; [by rewrite He|].
    by rewrite Hd, He.
  - simpl. destruct (Hall id (or_introl eq_refl)) as [Hget Hbody].
    rewrite Hget, Hbody. rewrite IH; [|intros i Hi; apply Hall; by right|done].
    by rewrite make_email_fetched, <- !app_assoc.
Qed.

Lemma fetch_loop_keys (user_id : string) (ids : list string)
    (emails : list (gmap string string)) (calls : list gmail_call) :
  Forall (fun email => dom email = email_keys) emails ->
  Forall (fun email => dom email = email_keys)
    (snd (fetch_loop service decode_text user_id ids emails calls)).
Proof.
  revert emails calls. induction ids as [|id rest IH]; intros emails calls Hall;
    [done|].
  simpl. destruct (messages_get service user_id id) as [detail|e]; [|done].
  destruct (extract_email_body decode_text _) as [body|e]; [|done].
  apply IH. apply Forall_app. split; [done|]. apply Forall_singleton.
  unfold make_email, email_keys. rewrite !dom_insert_L, dom_empty_L. set_solver.
Qed.

End FetchProperties.

(** When the listing and every message go through, [fetch_emails] lists
    once, with the query stripped of its characters outside ASCII, gets
    each listed message once in the order of the listing, and returns one
    email per message in that order: the id, the thread id (empty when
    missing), the value of the first [Subject] header or [(No Subject)],
    of the first [Date] and [From] headers or the empty string, the
    snippet and the extracted body.  A listing without the [messages] key
    gives no email and no further request. *)
Theorem fetch_emails_in_order (service : GmailService)
    (decode_text : string -> result string) (user_id query : string)
    (max_results : Z) (ids : option (list string))
    (detail : string -> MessageDetail) (body : string -> string) :
  messages_list service user_id (drop_non_ascii query) max_results = Ok ids ->
  (forall id, In id (default [] ids) ->
     fetched service decode_text user_id id (detail id) (body id)) ->
  fetch_emails service decode_text user_id query max_results
  = (CallList user_id (drop_non_ascii query) max_results
       :: map (CallGet user_id) (default [] ids),
     map (fun id => fetched_email id (detail id) (body id)) (default [] ids)).
Proof.
  intros Hlist Hall. unfold fetch_emails. cbv zeta. rewrite ascii_only_drop, Hlist.
  by rewrite (fetch_loop_all _ _ _ _ detail body [] _ Hall).
Qed.

(** [fetch_emails] never fails, it returns less: when the listing raises
    the result is empty and nothing more is requested, and when the client
    or the body extraction raises on a message, the result is the emails
    of the messages before it and that message is the last one requested:
    the messages after it are not fetched. *)
Theorem fetch_emails_stops_at_failure (service : GmailService)
    (decode_text : string -> result string) (user_id query : string)
    (max_results : Z) :
  (forall e,
     messages_list service user_id (drop_non_ascii query) max_results = Raise e ->
     fetch_emails service decode_text user_id query max_results
     = ([CallList user_id (drop_non_ascii query) max_results], [])) /\
  (forall before bad after detail body,
     messages_list service user_id (drop_non_ascii query) max_results
       = Ok (Some (before ++ bad :: after)) ->
     (forall id, In id before ->
        fetched service decode_text user_id id (detail id) (body id)) ->
     fails service decode_text user_id bad ->
     fetch_emails service decode_text user_id query max_results
     = (CallList user_id (drop_non_ascii query) max_results
          :: map (CallGet user_id) (before ++ [bad]),
        map (fun id => fetched_email id (detail id) (body id)) before)).
Proof.
  split.
  - intros e Hlist. unfold fetch_emails. cbv zeta. by rewrite ascii_only_drop, Hlist.
  - intros before bad after detail body Hlist Hall Hbad.
    unfold fetch_emails. cbv zeta. rewrite ascii_only_drop, Hlist. simpl default.
    by rewrite (fetch_loop_stops _ _ _ _ _ _ detail body [] _ Hall Hbad).
Qed.

Lemma fetch_emails_in_order_witness :
  fetch_emails (demo_service None) urlsafe_b64decode_text "me" "after:2024/01/01" 10
  = ([ CallList "me" "after:2024/01/01" 10;
       CallGet "me" "m1"; CallGet "me" "m2"; CallGet "me" "m3" ],
     map (fun id =>
            {[ "id" := id; "threadId" := "t1"; "subject" := "Lunch";
               "date" := EmptyString; "from" := "a@x.com"; "snippet" := "Foo";
               "body" := "Footer" ]} : gmap string string)
         ["m1"; "m2"; "m3"]).
Proof.
  rewrite (fetch_emails_in_order (demo_service None) urlsafe_b64decode_text "me"
             "after:2024/01/01" 10 (Some ["m1"; "m2"; "m3"])
             (fun _ => demo_detail) (fun _ => "Footer")).
  - vm_compute. reflexivity.
  - reflexivity.
  - intros id _. split; [reflexivity | vm_compute; reflexivity].
Defined.

Lemma fetch_emails_stops_at_failure_witness :
  fetch_emails (demo_service (Some "m2")) urlsafe_b64decode_text "me"
    "after:2024/01/01" 10
  = ([ CallList "me" "after:2024/01/01" 10; CallGet "me" "m1"; CallGet "me" "m2" ],
     [fetched_email "m1" demo_detail "Footer"]).
Proof.
  apply (proj2 (fetch_emails_stops_at_failure (demo_service (Some "m2"))
                  urlsafe_b64decode_text "me" "after:2024/01/01" 10)
           ["m1"] "m2" ["m3"] (fun _ => demo_detail) (fun _ => "Footer")).
  - reflexivity.
  - intros id [<-|[]]. split; [reflexivity | vm_compute; reflexivity].
  - left. eexists. reflexivity.
Defined.

Lemma fetch_emails_keys (service : GmailService)
    (decode_text : string -> result string) (user_id query : string)
    (max_results : Z) :
  Forall (fun email => dom email = email_keys)
    (snd (fetch_emails service decode_text user_id query max_results)).
Proof.
  unfold fetch_emails. cbv zeta.
  destruct (messages_list service user_id _ max_results) as [ids|e]; [|done].
  by apply fetch_loop_keys.
Qed.

Lemma email_keys_lookup (email : gmap string string) (k : string) :
  dom email = email_keys -> k ∈ email_keys -> is_Some (email !! k).
Proof. intros Hdom Hk. apply elem_of_dom. by rewrite Hdom. Qed.

(** What [fetch_emails] returns is fit for the rest of ingestion: every
    email has the seven keys, so the selection of the texts never stumbles
    on a missing subject and the preparation of the vectors never on a
    missing id. *)
Theorem fetched_emails_are_complete (service : GmailService)
    (decode_text : string -> result string) (user_id query : string)
    (max_results : Z) (embeddings : list (list float)) :
  let emails := snd (fetch_emails service decode_text user_id query max_results) in
  Forall (fun email => dom email = email_keys) emails /\
  select_contents emails
    = Ok (map email_text (List.filter has_content emails),
          List.filter has_content emails) /\
  prepare_email_vectors (List.filter has_content emails) embeddings
    = Ok (zip_with vector_of (List.filter has_content emails) embeddings).
Proof.
  intros emails.
  pose proof (fetch_emails_keys service decode_text user_id query max_results)
    as Hkeys. fold emails in Hkeys.
  rewrite Forall_forall in Hkeys.
  split; [by apply Forall_forall|]. split.
  - unfold select_contents. apply select_loop_kept.
    intros email Hin _. apply email_keys_lookup; [|set_solver].
    apply Hkeys. by apply list_elem_of_In.
  - unfold prepare_email_vectors. rewrite prepare_loop_zip; [done|].
    intros email Hin. apply filter_In in Hin as [Hin _].
    apply email_keys_lookup; [|set_solver].
    apply Hkeys. by apply list_elem_of_In.
Qed.

(** ** Validating the configuration *)

Lemma missing_vars_nil (s : Config.Settings) :
  Config.missing_vars s = [] <->
  Config.unset (Config.PINECONE_API_KEY s) = false /\
  Config.unset (Config.PINECONE_ENV s) = false /\
  (Config.LLM_PROVIDER s = "replicate" ->
   Config.unset (Config.REPLICATE_API_TOKEN s) = false).
Proof.
  unfold Config.missing_vars, Config.required_vars.
  destruct (String.eqb_spec (Config.LLM_PROVIDER s) "replicate") as [Hrep|Hrep];
    simpl;
    destruct (Config.unset (Config.PINECONE_API_KEY s)),
             (Config.unset (Config.PINECONE_ENV s));
    try destruct (Config.unset (Config.REPLICATE_API_TOKEN s));
    simpl; split; try discriminate; try tauto; try (by intros (? & ? & ?));
    intros (_ & _ & H); by specialize (H Hrep).
Qed.

(** [validate_config] returns, and then returns true, exactly when the
    two Pinecone settings are set and not empty, the Replicate token too if
    the provider is [replicate], and the credentials file exists.  The
    settings are looked at first: a [FileNotFoundError] means that no
    required setting is missing. *)
Theorem validate_config_outcomes (s : Config.Settings) :
  (Config.validate_config s = Config.Returns true <->
   Config.unset (Config.PINECONE_API_KEY s) = false /\
   Config.unset (Config.PINECONE_ENV s) = false /\
   (Config.LLM_PROVIDER s = "replicate" ->
    Config.unset (Config.REPLICATE_API_TOKEN s) = false) /\
   Config.credentials_exist s = true) /\
  Config.validate_config s <> Config.Returns false /\
  (forall msg,
     Config.validate_config s = Config.Raises (Config.FileNotFoundError msg) ->
     Config.missing_vars s = [] /\ Config.credentials_exist s = false /\
     msg = "Gmail credentials file not found at auth/credentials/credentials.json") /\
  (forall msg,
     Config.validate_config s = Config.Raises (Config.ValueError msg) ->
     Config.missing_vars s <> [] /\
     msg = "Missing required environment variables: "
           +:+ Py.join ", " (Config.missing_vars s)).
Proof.
  pose proof (missing_vars_nil s) as Hnil.
  unfold Config.validate_config.
  destruct (Config.missing_vars s) as [|name rest] eqn:Hmiss.
  - destruct (Config.credentials_exist s) eqn:Hcred.
    + split; [|repeat split; try discriminate].
      split; [intros _|done]. destruct Hnil as [Hnil _].
      destruct (Hnil eq_refl) as (? & ? & ?). done.
    + split; [|split; [discriminate|split]].
      * split; [discriminate|]. by intros (_ & _ & _ & ?).
      * intros msg [= <-]. done.
      * discriminate.
  - split; [|split; [discriminate|split]].
    + split; [discriminate|]. intros (H1 & H2 & H3 & _).
      destruct Hnil as [_ Hnil]. by specialize (Hnil (conj H1 (conj H2 H3))).
    + discriminate.
    + intros msg [= <-]. done.
Qed.

Lemma validate_config_outcomes_witness :
  let s := {| Config.LLM_PROVIDER := "ollama";
              Config.PINECONE_API_KEY := Some "key";
              Config.PINECONE_ENV := None;
              Config.REPLICATE_API_TOKEN := None;
              Config.credentials_exist := false |} in
  Config.validate_config s
  = Config.Raises (Config.ValueError
      "Missing required environment variables: PINECONE_ENV").
Proof.
  intros s.
  destruct (Config.validate_config s) as [value|[msg|msg]] eqn:Hrun;
    [discriminate Hrun | | discriminate Hrun].
  destruct (proj2 (proj2 (proj2 (validate_config_outcomes s))) msg Hrun) as [_ ->].
  reflexivity.
Defined.

Lemma generate_answer_unknown_provider (env : Env) (question : string)
    (v : list float) (matches : list Match) :
  retrieves env question v matches -> matches <> [] ->
  LLM_PROVIDER env <> "ollama" ->
  snd (run (generate_answer env question))
  = Raise (ValueError ("Unknown LLM provider: " +:+ LLM_PROVIDER env +:+
                       ". Available: 'ollama'")).
Proof.
  intros Hret Hne Hp. unfold generate_answer.
  rewrite (retrieval_run env question v matches _ _ Hret).
  destruct matches as [|m rest]; [done|].
  rewrite collect_maps.
  unfold generate_llm_answer, mbind, M_bind, get_llm.
  destruct (String.eqb_spec (LLM_PROVIDER env) "ollama") as [Heq|_]; [done|].
  reflexivity.
Qed.

(** The settings offer [replicate] as a provider and [validate_config]
    accepts it, asking for its token; the answer pipeline knows [ollama]
    only.  With a configuration that passed validation under
    [LLM_PROVIDER=replicate], every question that finds matches fails with
    the [ValueError] of [get_llm]. *)
Theorem validated_replicate_cannot_answer (s : Config.Settings) (env : Env)
    (question : string) (v : list float) (matches : list Match) :
  Config.LLM_PROVIDER s = "replicate" ->
  LLM_PROVIDER env = Config.LLM_PROVIDER s ->
  Config.validate_config s = Config.Returns true ->
  retrieves env question v matches -> matches <> [] ->
  snd (run (generate_answer env question))
  = Raise (ValueError "Unknown LLM provider: replicate. Available: 'ollama'").
Proof.
  intros Hrep Henv _ Hret Hne.
  rewrite (generate_answer_unknown_provider env question v matches Hret Hne).
  - rewrite Henv, Hrep. reflexivity.
  - rewrite Henv, Hrep. discriminate.
Qed.

Lemma validated_replicate_cannot_answer_witness :
  let s := {| Config.LLM_PROVIDER := "replicate";
              Config.PINECONE_API_KEY := Some "key";
              Config.PINECONE_ENV := Some "us-east-1";
              Config.REPLICATE_API_TOKEN := Some "r8_token";
              Config.credentials_exist := true |} in
  let matches := [preview_match "m1" 10] in
  let env := {| LLM_PROVIDER := "replicate"; OLLAMA_BASE_URL := "http://localhost:11434";
                OLLAMA_MODEL := "nomic-embed-text"; LLAMA_MODEL := "llama3.2";
                pinecone_connect := Ok tt;
                index_query := fun _ _ => Ok matches;
                post_embeddings := fun _ _ _ => Reply (Some []);
                post_generate := fun _ _ => Reply (Some "x") |} in
  Config.validate_config s = Config.Returns true /\
  snd (run (generate_answer env "Any news?"))
  = Raise (ValueError "Unknown LLM provider: replicate. Available: 'ollama'").
Proof.
  intros s matches env. split; [reflexivity|].
  apply (validated_replicate_cannot_answer s env "Any news?" [] matches);
    [reflexivity | reflexivity | reflexivity | repeat split | discriminate].
Defined.
